(** * ReBACH: preservation look-ups, listing parsers and size estimation

    A shallow embedding of [figshare/Utils.py], [bagger/wasabi.py] and
    [redata_preservation/wasabi.py], and the properties of these functions.

    Python values are embedded as trees ([value]); a Python [dict] is an
    association list in insertion order; Python [str] is [string], a
    character being its code point below 256; a Python exception is the
    [Raise] branch of [result]. *)

From Stdlib Require Import ZArith List Bool Arith Lia.
From Stdlib Require Import Ascii String DecimalString.
From Stdlib Require Import Permutation Sorted.
Import ListNotations.

Local Open Scope list_scope.
Local Open Scope string_scope.

(** ** Exceptions *)

Inductive exn : Type :=
| TypeError
| IndexError
| ValueError
| KeyError
| FileNotFoundError
| PermissionError
| RequestException.

Inductive result (A : Type) : Type :=
| Ok (a : A)
| Raise (e : exn).

Arguments Ok {A} a.
Arguments Raise {A} e.

Definition bind {A B : Type} (m : result A) (k : A -> result B) : result B :=
  match m with
  | Ok a => k a
  | Raise e => Raise e
  end.

Notation "x <- m ;; k" := (bind m (fun x => k))
  (at level 61, m at next level, right associativity).

(** A comprehension or generator whose element expression can raise. *)
Fixpoint mapM {A B : Type} (f : A -> result B) (l : list A) : result (list B) :=
  match l with
  | [] => Ok []
  | x :: l' => y <- f x ;; ys <- mapM f l' ;; Ok (y :: ys)
  end.

(** [[elt(x) for x in l if cond(x)]]: the condition, then the element,
    are evaluated item by item. *)
Fixpoint comprehension {A B : Type} (cond : A -> result bool)
    (elt : A -> result B) (l : list A) : result (list B) :=
  match l with
  | [] => Ok []
  | x :: l' =>
      c <- cond x ;;
      if c then y <- elt x ;; ys <- comprehension cond elt l' ;; Ok (y :: ys)
      else comprehension cond elt l'
  end.

(** [l[-k]] for [k >= 1]. *)
Definition index_from_end {A : Type} (l : list A) (k : nat) : result A :=
  if (k <=? List.length l)%nat
  then match nth_error l (List.length l - k) with
       | Some x => Ok x
       | None => Raise IndexError
       end
  else Raise IndexError.

(** ** Python string operations *)

Module PyStr.

Definition code (a : ascii) : N := N_of_ascii a.

Definition slash : ascii := "/"%char.

(** [str(n)] for an [int]. *)
Definition str_of_int (n : Z) : string := NilZero.string_of_int (Z.to_int n).

(** [sub in s]. *)
Fixpoint contains (sub s : string) : bool :=
  match s with
  | EmptyString => prefix sub s
  | String _ s' => prefix sub s || contains sub s'
  end.

(** [s.split(c)] for a one-character separator. *)
Fixpoint split (c : ascii) (s : string) : list string :=
  match s with
  | EmptyString => [EmptyString]
  | String a s' =>
      if Ascii.eqb a c then EmptyString :: split c s'
      else match split c s' with
           | seg :: rest => String a seg :: rest
           | [] => [String a EmptyString]
           end
  end.

(** [s.rsplit(c, 1)]: cut at the last occurrence of [c], if any. *)
Fixpoint rsplit1 (c : ascii) (s : string) : list string :=
  match s with
  | EmptyString => [EmptyString]
  | String a s' =>
      match rsplit1 c s' with
      | [tl] => if Ascii.eqb a c then [EmptyString; tl] else [String a tl]
      | hd :: rest => String a hd :: rest
      | [] => [String a EmptyString]
      end
  end.

(** Line boundaries of [str.splitlines]. *)
Definition is_linebreak (a : ascii) : bool :=
  let n := code a in
  (N.eqb n 10 || N.eqb n 11 || N.eqb n 12 || N.eqb n 13
   || N.eqb n 28 || N.eqb n 29 || N.eqb n 30 || N.eqb n 133)%bool.

(** [s.splitlines()]: no trailing empty line, ["\r\n"] is one boundary. *)
Fixpoint splitlines (s : string) : list string :=
  match s with
  | EmptyString => []
  | String a s' =>
      if is_linebreak a then
        match s' with
        | String b s'' =>
            if (N.eqb (code a) 13 && N.eqb (code b) 10)%bool
            then EmptyString :: splitlines s''
            else EmptyString :: splitlines s'
        | EmptyString => [EmptyString]
        end
      else match splitlines s' with
           | line :: rest => String a line :: rest
           | [] => [String a EmptyString]
           end
  end.

(** Whitespace of [str.split()] and [str.strip()]. *)
Definition is_space (a : ascii) : bool :=
  let n := code a in
  ((N.leb 9 n && N.leb n 13) || (N.leb 28 n && N.leb n 32)
   || N.eqb n 133 || N.eqb n 160)%bool.

Definition starts_with_space (s : string) : bool :=
  match s with
  | EmptyString => true
  | String b _ => is_space b
  end.

(** [s.split()]: the maximal runs of non-whitespace characters. *)
Fixpoint split_ws (s : string) : list string :=
  match s with
  | EmptyString => []
  | String a s' =>
      if is_space a then split_ws s'
      else if starts_with_space s' then String a EmptyString :: split_ws s'
      else match split_ws s' with
           | tok :: rest => String a tok :: rest
           | [] => [String a EmptyString]
           end
  end.

Fixpoint zeros (n : nat) : string :=
  match n with
  | O => EmptyString
  | S n' => String "0"%char (zeros n')
  end.

(** [s.zfill(width)]: the padding goes after a leading sign. *)
Definition zfill (s : string) (width : nat) : string :=
  if (width <=? String.length s)%nat then s
  else
    let pad := zeros (width - String.length s) in
    match s with
    | String a s' =>
        if (Ascii.eqb a "+"%char || Ascii.eqb a "-"%char)%bool
        then String a (pad ++ s')
        else pad ++ s
    | EmptyString => pad
    end.

End PyStr.

(** ** Listing parsers *)

(** [bagger/wasabi.py] *)
Module Bagger.

Definition get_filenames_from_ls (ls : string) : result (list string) :=
  let lines := PyStr.splitlines ls in
  comprehension
    (fun line =>
       name <- index_from_end (PyStr.rsplit1 PyStr.slash line) 1 ;;
       Ok (negb (String.eqb name "")))
    (fun line => index_from_end (PyStr.rsplit1 PyStr.slash line) 1)
    lines.

End Bagger.

(** [redata_preservation/wasabi.py] *)
Module Redata.

Definition get_filenames_from_ls (ls : string) : result (list string) :=
  let lines := PyStr.splitlines ls in
  comprehension
    (fun line =>
       name <- index_from_end (PyStr.split PyStr.slash line) 1 ;;
       Ok (negb (String.eqb name "")))
    (fun line => index_from_end (PyStr.split PyStr.slash line) 1)
    lines.

End Redata.

(** [figshare/Utils.py]: the listing parser that also keeps the size. *)
Definition get_filenames_and_sizes_from_ls (ls : string)
  : result (list (string * string)) :=
  let lines := PyStr.splitlines ls in
  comprehension
    (fun line =>
       name <- index_from_end (PyStr.rsplit1 PyStr.slash line) 1 ;;
       Ok (negb (String.eqb name "")))
    (fun line =>
       name <- index_from_end (PyStr.rsplit1 PyStr.slash line) 1 ;;
       size <- index_from_end (PyStr.split_ws line) 2 ;;
       Ok (name, size))
    lines.

(** ** Python values *)

(** The values that [json.loads] produces, floats apart.  The entries of a
    [VDict] are in insertion order. *)
#[warnings="-register-all"]
Inductive value : Type :=
| VNone
| VBool (b : bool)
| VInt (n : Z)
| VStr (s : string)
| VList (l : list value)
| VDict (d : list (string * value)).

Definition pydict : Type := list (string * value).

Definition is_dict (v : value) : bool :=
  match v with
  | VDict _ => true
  | _ => false
  end.

(** [d.get(k)] on the entries of a dict. *)
Fixpoint assoc {B : Type} (k : string) (d : list (string * B)) : option B :=
  match d with
  | [] => None
  | (k', v) :: d' => if String.eqb k k' then Some v else assoc k d'
  end.

(** [d[k] = v]: an existing key keeps its place, a new one goes last. *)
Fixpoint dict_set {B : Type} (d : list (string * B)) (k : string) (v : B)
  : list (string * B) :=
  match d with
  | [] => [(k, v)]
  | (k', v') :: d' =>
      if String.eqb k k' then (k', v) :: d' else (k', v') :: dict_set d' k v
  end.

(** *** [str] and [repr] *)

Module PyRepr.

Definition hex_digit (n : N) : ascii :=
  if N.ltb n 10 then ascii_of_N (48 + n) else ascii_of_N (87 + n).

Definition is_printable (a : ascii) : bool :=
  let n := PyStr.code a in
  ((N.leb 32 n && N.ltb n 127)
   || (N.leb 161 n && negb (N.eqb n 173)))%bool.

Definition backslash : ascii := ascii_of_nat 92.
Definition squote : ascii := ascii_of_nat 39.
Definition dquote : ascii := ascii_of_nat 34.

Definition escape_char (quote a : ascii) : string :=
  let n := PyStr.code a in
  if (Ascii.eqb a quote || Ascii.eqb a backslash)%bool
  then String backslash (String a EmptyString)
  else if N.eqb n 9 then String backslash "t"
  else if N.eqb n 10 then String backslash "n"
  else if N.eqb n 13 then String backslash "r"
  else if is_printable a then String a EmptyString
  else String backslash
         (String "x"%char
            (String (hex_digit (N.div n 16))
               (String (hex_digit (N.modulo n 16)) EmptyString))).

Fixpoint escape (quote : ascii) (s : string) : string :=
  match s with
  | EmptyString => EmptyString
  | String a s' => escape_char quote a ++ escape quote s'
  end.

Fixpoint has_char (c : ascii) (s : string) : bool :=
  match s with
  | EmptyString => false
  | String a s' => Ascii.eqb a c || has_char c s'
  end.

(** [repr(s)] for a [str]: double quotes only when the text has a single
    quote and no double quote. *)
Definition repr_str (s : string) : string :=
  let quote :=
    if (has_char squote s && negb (has_char dquote s))%bool
    then dquote else squote in
  String quote (escape quote s ++ String quote EmptyString).

Fixpoint join (sep : string) (l : list string) : string :=
  match l with
  | [] => EmptyString
  | [x] => x
  | x :: l' => x ++ sep ++ join sep l'
  end.

Fixpoint repr (v : value) : string :=
  match v with
  | VNone => "None"
  | VBool true => "True"
  | VBool false => "False"
  | VInt n => PyStr.str_of_int n
  | VStr s => repr_str s
  | VList l => "[" ++ join ", " (map repr l) ++ "]"
  | VDict d =>
      "{" ++ join ", " (map (fun kv => repr_str (fst kv) ++ ": " ++ repr (snd kv)) d)
          ++ "}"
  end.

(** [str(v)]: the text itself for a [str], [repr(v)] otherwise. *)
Definition str (v : value) : string :=
  match v with
  | VStr s => s
  | _ => repr v
  end.

End PyRepr.

(** *** Comparisons *)

Definition num_of (v : value) : option Z :=
  match v with
  | VBool b => Some (if b then 1 else 0)%Z
  | VInt n => Some n
  | _ => None
  end.

Section ListCompare.
Variables (eq : value -> value -> bool) (lt : value -> value -> result bool).

(** Sequences are equal when they are elementwise. *)
Fixpoint list_eq_with (xs ys : list value) : bool :=
  match xs, ys with
  | [], [] => true
  | x :: xs', y :: ys' => eq x y && list_eq_with xs' ys'
  | _, _ => false
  end.

(** [xs < ys]: decided by the first pair of unequal items, and by the
    lengths when one is a prefix of the other. *)
Fixpoint list_lt_with (xs ys : list value) : result bool :=
  match xs, ys with
  | [], [] => Ok false
  | [], _ :: _ => Ok true
  | _ :: _, [] => Ok false
  | x :: xs', y :: ys' => if eq x y then list_lt_with xs' ys' else lt x y
  end.

(** Every entry of [a] is an entry of [b], up to [eq]. *)
Fixpoint dict_incl_with (a b : list (string * value)) : bool :=
  match a with
  | [] => true
  | (k, v) :: a' =>
      match assoc k b with
      | Some v' => eq v v'
      | None => false
      end && dict_incl_with a' b
  end.

Fixpoint lookup_eq_with (a : list (string * value)) (k' : string) (v' : value)
  : bool :=
  match a with
  | [] => false
  | (k, v) :: a' => if String.eqb k' k then eq v v' else lookup_eq_with a' k' v'
  end.

(** Every entry of [b] is an entry of [a], up to [eq]. *)
Definition dict_incl_rev_with (a b : list (string * value)) : bool :=
  forallb (fun kv => lookup_eq_with a (fst kv) (snd kv)) b.
End ListCompare.

(** [a == b].  [True == 1]; two dicts are equal when they have the same
    entries, in any order. *)
Fixpoint py_eq (a b : value) {struct a} : bool :=
  match a, b with
  | VNone, VNone => true
  | VStr s, VStr t => String.eqb s t
  | VList xs, VList ys => list_eq_with py_eq xs ys
  | VDict d, VDict e => dict_incl_with py_eq d e && dict_incl_rev_with py_eq d e
  | _, _ =>
      match num_of a, num_of b with
      | Some m, Some n => Z.eqb m n
      | _, _ => false
      end
  end.

(** [a < b]: numbers with numbers, text with text by code points, lists
    with lists; anything else is a [TypeError]. *)
Fixpoint py_lt (a b : value) {struct a} : result bool :=
  match a, b with
  | VStr s, VStr t => Ok (String.ltb s t)
  | VList xs, VList ys => list_lt_with py_eq py_lt xs ys
  | _, _ =>
      match num_of a, num_of b with
      | Some m, Some n => Ok (Z.ltb m n)
      | _, _ => Raise TypeError
      end
  end.

(** A tuple of [str] is below another as lists of text are. *)
Fixpoint tuple_ltb (xs ys : list string) : bool :=
  match xs, ys with
  | [], [] => false
  | [], _ :: _ => true
  | _ :: _, [] => false
  | x :: xs', y :: ys' => if String.eqb x y then tuple_ltb xs' ys' else String.ltb x y
  end.

(** ** [sorted] *)

(** [sorted] is stable and only ever asks [<] of two items; a comparison
    that raises ends the sort.  The items are inserted from the right, each
    one in front of the first item that is not below it. *)
Section Sorted.
Context {A : Type}.

Section Raising.
Variable lt : A -> A -> result bool.

Fixpoint insert_sorted (x : A) (l : list A) : result (list A) :=
  match l with
  | [] => Ok [x]
  | y :: l' =>
      b <- lt y x ;;
      if b then r <- insert_sorted x l' ;; Ok (y :: r) else Ok (x :: y :: l')
  end.

Fixpoint py_sorted (l : list A) : result (list A) :=
  match l with
  | [] => Ok []
  | x :: l' => s <- py_sorted l' ;; insert_sorted x s
  end.
End Raising.

Section Total.
Variable ltb : A -> A -> bool.

Fixpoint insert_total (x : A) (l : list A) : list A :=
  match l with
  | [] => [x]
  | y :: l' => if ltb y x then y :: insert_total x l' else x :: y :: l'
  end.

Fixpoint sorted_total (l : list A) : list A :=
  match l with
  | [] => []
  | x :: l' => insert_total x (sorted_total l')
  end.
End Total.

(** [sorted(l, key=key)] when neither the key nor its order raises. *)
Definition sorted_by_key {K : Type} (ltb : K -> K -> bool) (key : A -> K)
    (l : list A) : list A :=
  sorted_total (fun a b => ltb (key a) (key b)) l.
End Sorted.

(** ** The normaliser *)

Definition dict_keys (v : value) : list string :=
  match v with
  | VDict d => map fst d
  | _ => []
  end.

(** [d.get(k, '')] *)
Definition dict_get_default (v : value) (k : string) (default : value) : value :=
  match v with
  | VDict d => match assoc k d with Some x => x | None => default end
  | _ => default
  end.

(** [sorted(set(keys))] *)
Definition sorted_set (keys : list string) : list string :=
  sorted_total String.ltb (nodup string_dec keys).

(** The sort key of [sorter_api_result] for a list of dicts. *)
Definition dicts_sort_key (unique_dicts_keys : list string) (d : value)
  : list string :=
  map (fun k => PyRepr.str (dict_get_default d k (VStr ""))) unique_dicts_keys.

Section DictLoop.
Variable sorter : value -> result value.

(** The right-hand side of the assignment in the loop over the keys:
    [json_dict_[key]] as it is under ['authors'], and sorted otherwise. *)
Fixpoint sorted_item (key : string) (json_dict_ : list (string * value))
  : result value :=
  match json_dict_ with
  | [] => Raise KeyError
  | (k, x) :: rest =>
      if String.eqb key k
      then (if String.eqb key "authors" then Ok x else sorter x)
      else sorted_item key rest
  end.

Fixpoint sorted_dict_loop (json_dict_ : list (string * value))
    (json_dict_keys : list string) (sorted_dict : list (string * value))
  : result (list (string * value)) :=
  match json_dict_keys with
  | [] => Ok sorted_dict
  | key :: keys =>
      x <- sorted_item key json_dict_ ;;
      sorted_dict_loop json_dict_ keys (dict_set sorted_dict key x)
  end.
End DictLoop.

Fixpoint sorter_api_result (json_dict_ : value) : result value :=
  match json_dict_ with
  | VList l =>
      if (forallb is_dict l && negb (Nat.eqb (List.length l) 0))%bool then
        let dicts_keys := flat_map dict_keys l in
        let unique_dicts_keys := sorted_set dicts_keys in
        Ok (VList (sorted_by_key tuple_ltb (dicts_sort_key unique_dicts_keys) l))
      else
        items <- mapM sorter_api_result l ;;
        r <- py_sorted py_lt items ;;
        Ok (VList r)
  | VDict d =>
      let json_dict_keys := sorted_total String.ltb (map fst d) in
      sorted_dict <- sorted_dict_loop sorter_api_result d json_dict_keys [] ;;
      Ok (VDict sorted_dict)
  | _ => Ok json_dict_
  end.

(** ** Mutable dicts: [standardize_api_result] *)

(** A dict that the caller holds is an object of the store, named by its
    address; binding a second name to it copies the address only. *)
Definition ref : Type := nat.
Definition store : Type := list pydict.

Definition deref (st : store) (r : ref) : result pydict :=
  match nth_error st r with
  | Some d => Ok d
  | None => Raise KeyError
  end.

Fixpoint store_update (st : store) (r : ref) (d : pydict) : store :=
  match st, r with
  | [], _ => []
  | _ :: st', O => d :: st'
  | d' :: st', S r' => d' :: store_update st' r' d
  end.

(** [obj[key]] *)
Definition getitem (st : store) (r : ref) (key : string) : result value :=
  d <- deref st r ;;
  match assoc key d with
  | Some v => Ok v
  | None => Raise KeyError
  end.

(** [obj[key] = v] *)
Definition setitem (st : store) (r : ref) (key : string) (v : value)
  : result store :=
  d <- deref st r ;;
  Ok (store_update st r (dict_set d key v)).

Definition is_none (v : value) : bool :=
  match v with
  | VNone => true
  | _ => false
  end.

Fixpoint standardize_loop (api_result_dict : ref) (keys : list string)
    (st : store) : result store :=
  match keys with
  | [] => Ok st
  | key :: keys' =>
      v <- getitem st api_result_dict key ;;
      if (py_eq v (VStr "null") || is_none v)%bool
      then st' <- setitem st api_result_dict key (VStr "") ;;
           standardize_loop api_result_dict keys' st'
      else standardize_loop api_result_dict keys' st
  end.

(** The result is the argument's own address: [api_result_dict] is a
    second name of [api_result], not a copy. *)
Definition standardize_api_result (api_result : ref) (st : store)
  : result (ref * store) :=
  let api_result_dict := api_result in
  d <- deref st api_result_dict ;;
  st' <- standardize_loop api_result_dict (map fst d) st ;;
  Ok (api_result_dict, st').

(** ** Version tags *)

Module PyInt.

Definition digit_of (a : ascii) : option Z :=
  let n := PyStr.code a in
  if (N.leb 48 n && N.leb n 57)%bool then Some (Z.of_N n - 48)%Z else None.

(** The whitespace that [int] lets stand around a number: that of
    [str.split] without the four separators U+001C to U+001F. *)
Definition is_space (a : ascii) : bool :=
  let n := PyStr.code a in
  ((N.leb 9 n && N.leb n 13) || N.eqb n 32 || N.eqb n 133 || N.eqb n 160)%bool.

Fixpoint lstrip (s : string) : string :=
  match s with
  | EmptyString => EmptyString
  | String a s' => if is_space a then lstrip s' else s
  end.

Fixpoint rstrip (s : string) : string :=
  match s with
  | EmptyString => EmptyString
  | String a s' =>
      match rstrip s' with
      | EmptyString => if is_space a then EmptyString else String a EmptyString
      | r => String a r
      end
  end.

(** Decimal digits, single underscores between them allowed. *)
Fixpoint digits (s : string) (acc : Z) (after_digit : bool) : option Z :=
  match s with
  | EmptyString => if after_digit then Some acc else None
  | String a s' =>
      match digit_of a with
      | Some d => digits s' (10 * acc + d)%Z true
      | None =>
          if (Ascii.eqb a "_"%char && after_digit)%bool
          then digits s' acc false
          else None
      end
  end.

Definition of_string (s : string) : result Z :=
  let s := rstrip (lstrip s) in
  let parsed :=
    match s with
    | String a s' =>
        if Ascii.eqb a "-"%char then option_map Z.opp (digits s' 0%Z false)
        else if Ascii.eqb a "+"%char then digits s' 0%Z false
        else digits s 0%Z false
    | EmptyString => None
    end in
  match parsed with
  | Some n => Ok n
  | None => Raise ValueError
  end.

(** [int(v)] *)
Definition int (v : value) : result Z :=
  match v with
  | VInt n => Ok n
  | VBool b => Ok (if b then 1 else 0)%Z
  | VStr s => of_string s
  | _ => Raise TypeError
  end.

End PyInt.

(** The tag of [get_preserved_version_hash_and_size]. *)
Definition get_preserved_version_tag (version_no : value) : result value :=
  if PyStr.contains "v" (PyRepr.str version_no) then Ok version_no
  else
    n <- PyInt.int version_no ;;
    if (n <? 10)%Z
    then Ok (VStr ("v" ++ PyStr.zfill (PyRepr.str version_no) 2))
    else Ok (VStr ("v" ++ PyRepr.str version_no)).

(** The tag of [check_wasabi]. *)
Definition check_wasabi_version_tag (version_no : value) : result value :=
  if PyStr.contains "v" (PyRepr.str version_no) then Ok version_no
  else
    n <- PyInt.int version_no ;;
    if (n <? 10)%Z
    then Ok (VStr ("v" ++ PyStr.zfill (PyRepr.str version_no) 2))
    else Ok (VStr ("v" ++ PyRepr.str version_no)).

(** The tag of [calculate_payload_size]. *)
Definition calculate_payload_version_tag (version_no : value) : result string :=
  let version := "v" ++ PyStr.zfill (PyRepr.str version_no) 2 in
  n <- PyInt.int version_no ;;
  if (9 <? n)%Z then Ok ("v" ++ PyRepr.str version_no) else Ok version.

(** ** The curation storage *)

Record dirent : Type := {
  name : string;
  is_dir : bool;
  size : Z
}.

Record directory : Type := {
  dir_readable : bool;
  dir_entries : list dirent
}.

(** The directories of the file system, by path. *)
Definition filesystem : Type := list (string * directory).

Module Os.

(** [os.access(path, os.R_OK)] *)
Definition access (fs : filesystem) (path : string) : bool :=
  match assoc path fs with
  | Some d => dir_readable d
  | None => false
  end.

(** [os.scandir(path)]: the empty path names no directory, and a
    directory that cannot be read is not listed. *)
Definition scandir (fs : filesystem) (path : string) : result (list dirent) :=
  if String.eqb path "" then Raise FileNotFoundError
  else match assoc path fs with
       | Some d => if dir_readable d then Ok (dir_entries d)
                   else Raise PermissionError
       | None => Raise FileNotFoundError
       end.

Fixpoint ends_with_slash (s : string) : bool :=
  match s with
  | EmptyString => false
  | String a EmptyString => Ascii.eqb a PyStr.slash
  | String _ s' => ends_with_slash s'
  end.

(** [os.path.join(a, b)] *)
Definition path_join (a b : string) : string :=
  match b with
  | String c _ =>
      if Ascii.eqb c PyStr.slash then b
      else if (String.eqb a "" || ends_with_slash a)%bool then a ++ b
      else a ++ "/" ++ b
  | EmptyString =>
      if (String.eqb a "" || ends_with_slash a)%bool then a else a ++ "/"
  end.

(** [os.path.getsize(path)] of an entry of some directory. *)
Definition getsize (fs : filesystem) (path : string) : result Z :=
  let entries :=
    flat_map (fun pd => map (fun e => (path_join (fst pd) (name e), size e))
                            (dir_entries (snd pd))) fs in
  match assoc path entries with
  | Some n => Ok n
  | None => Raise FileNotFoundError
  end.

End Os.

(** A loop over the entries that stops at the first directory whose name
    has [sub] in it; [path] keeps its value when there is none. *)
Definition first_matching_dir (sub : string) (parent : string)
    (items : list dirent) (path : string) : string :=
  match find (fun item => is_dir item && PyStr.contains sub (name item))%bool items with
  | Some item => Os.path_join parent (name item)
  | None => path
  end.

Fixpoint sum_file_sizes (fs : filesystem) (dir : string) (items : list dirent)
    (version_ual_rdm_size : Z) : result Z :=
  match items with
  | [] => Ok version_ual_rdm_size
  | item :: rest =>
      file_size <- Os.getsize fs (Os.path_join dir (name item)) ;;
      sum_file_sizes fs dir rest (version_ual_rdm_size + file_size)%Z
  end.

Definition calculate_ual_rdm_size (fs : filesystem) (curation_storage : string)
    (article_id : value) (version : string) : result Z :=
  let article_dir := "" in
  let article_version_dir := "" in
  let article_version_ual_rdm := "" in
  let version_ual_rdm_size := 0%Z in
  if Os.access fs curation_storage then
    curation_storage_items <- Os.scandir fs curation_storage ;;
    let article_dir :=
      first_matching_dir (PyRepr.str article_id) curation_storage
                         curation_storage_items article_dir in
    items <- Os.scandir fs article_dir ;;
    let article_version_dir :=
      first_matching_dir version article_dir items article_version_dir in
    items <- Os.scandir fs article_version_dir ;;
    let article_version_ual_rdm :=
      first_matching_dir "UAL_RDM" article_version_dir items
                         article_version_ual_rdm in
    items <- Os.scandir fs article_version_ual_rdm ;;
    sum_file_sizes fs article_version_ual_rdm items version_ual_rdm_size
  else Ok version_ual_rdm_size.

(** ** The size of the JSON file *)

(** The temporary directory: where [tempfile.gettempdir()] says it is,
    whether it exists and can be written to, and what [open(path, 'w')] does
    for a path (it returns, or it raises). *)
Record tempdir : Type := {
  tmp_path : string;
  tmp_exists : bool;
  tmp_writable : bool;
  tmp_open : string -> result unit
}.

Section JsonFileSize.
(** [json.dumps(v, indent=4)], whose text is ASCII. *)
Variable json_dumps : value -> string.

Definition calculate_json_file_size (temp_dir : tempdir) (version_data : ref)
    (st : store) : result (Z * store) :=
  r <- standardize_api_result version_data st ;;
  let (version_data_copy, st1) := r in
  d <- deref st1 version_data_copy ;;
  version_data_copy' <- sorter_api_result (VDict d) ;;
  let version_data_copy_json := json_dumps version_data_copy' in
  id <- getitem st1 version_data "id" ;;
  let filename := PyRepr.str id ++ ".json" in
  let json_file_size := 0%Z in
  let filepath := Os.path_join (tmp_path temp_dir) filename in
  if tmp_exists temp_dir then
    if tmp_writable temp_dir then
      _ <- tmp_open temp_dir filepath ;;
      let json_file_size := Z.of_nat (String.length version_data_copy_json) in
      Ok (json_file_size, st1)
    else Ok (json_file_size, st1)
  else Ok (json_file_size, st1).
End JsonFileSize.

Section PayloadSize.
Variable json_dumps : value -> string.

Definition calculate_payload_size (fs : filesystem) (temp_dir : tempdir)
    (curation_storage : string) (version_data : ref) (st : store)
  : result (Z * store) :=
  article_id <- getitem st version_data "id" ;;
  article_files_size <- getitem st version_data "size" ;;
  version_no <- getitem st version_data "version" ;;
  version <- calculate_payload_version_tag version_no ;;
  version_ual_rdm_size <-
    calculate_ual_rdm_size fs curation_storage article_id version ;;
  r <- calculate_json_file_size json_dumps temp_dir version_data st ;;
  let (json_file_size, st') := r in
  match num_of article_files_size with
  | Some n => Ok ((version_ual_rdm_size + json_file_size + n)%Z, st')
  | None => Raise TypeError
  end.
End PayloadSize.

(** ** The registry look-up *)

Record package : Type := {
  bag_name : string;
  payload_size : Z
}.

(** What [requests.get] does: it raises a [RequestException], or answers
    with a status code and the ['results'] of the body ([None] for null). *)
Inductive response : Type :=
| Transport_error
| Response (status_code : Z) (results : option (list package)).

(** The registry: its answer to the [n]-th request, for a page. *)
Definition registry : Type := nat -> Z -> response.

Record lookup_state : Type := {
  tries : Z;
  success : bool;
  requests : nat;
  sleeps : nat
}.

(** Where the look-up is: at the test of the outer loop, at the test of
    the inner loop (with [page]), or over. *)
Inductive control : Type :=
| At_outer (s : lookup_state)
| At_inner (page : Z) (s : lookup_state)
| Returned (preserved_pkg_hash : string) (preserved_pkg_size : Z)
           (s : lookup_state)
| Raised (e : exn) (s : lookup_state).

Section Lookup.
Variables (retries : Z) (server : registry).
Variables (article_id : value) (version_tag : string).

Definition matches (p : package) : bool :=
  (PyStr.contains (PyRepr.str article_id) (bag_name p)
   && PyStr.contains version_tag (bag_name p))%bool.

Definition count_request (s : lookup_state) : lookup_state :=
  {| tries := tries s; success := success s;
     requests := S (requests s); sleeps := sleeps s |}.

Definition step (c : control) : control :=
  match c with
  | At_outer s =>
      if ((tries s <=? retries)%Z && negb (success s))%bool
      then At_inner 1 s
      else Returned "" 0 s
  | At_inner page s =>
      let s := count_request s in
      match server (pred (requests s)) page with
      | Transport_error =>
          let s := {| tries := tries s + 1; success := success s;
                      requests := requests s; sleeps := sleeps s |} in
          if (retries <? tries s)%Z then Raised RequestException s
          else At_outer {| tries := tries s; success := success s;
                           requests := requests s; sleeps := S (sleeps s) |}
      | Response status_code results =>
          if (status_code =? 200)%Z then
            let s := {| tries := tries s; success := true;
                        requests := requests s; sleeps := sleeps s |} in
            match results with
            | None => At_outer s
            | Some preserved_packages =>
                match find matches preserved_packages with
                | Some p =>
                    match index_from_end (PyStr.split "_"%char (bag_name p)) 1 with
                    | Ok h => Returned h (payload_size p) s
                    | Raise e => Raised e s
                    end
                | None => At_inner (page + 1) s
                end
            end
          else At_inner page s
      end
  | Returned _ _ _ | Raised _ _ => c
  end.

Fixpoint run (fuel : nat) (c : control) : control :=
  match fuel with
  | O => c
  | S fuel' => run fuel' (step c)
  end.

Definition initial : control :=
  At_outer {| tries := 1; success := false; requests := 0; sleeps := 0 |}.
End Lookup.

(** The loops when the tag is not text (a list with a [v] in it, passed
    through as it is): [version_no in package['bag_name']] is a [TypeError],
    raised at the first package whose name has the article id in it and
    caught by nothing. *)
Section LookupUntagged.
Variables (retries : Z) (server : registry) (article_id : value).

Definition has_article_id (p : package) : bool :=
  PyStr.contains (PyRepr.str article_id) (bag_name p).

Definition step_untagged (c : control) : control :=
  match c with
  | At_outer s =>
      if ((tries s <=? retries)%Z && negb (success s))%bool
      then At_inner 1 s
      else Returned "" 0 s
  | At_inner page s =>
      let s := count_request s in
      match server (pred (requests s)) page with
      | Transport_error =>
          let s := {| tries := tries s + 1; success := success s;
                      requests := requests s; sleeps := sleeps s |} in
          if (retries <? tries s)%Z then Raised RequestException s
          else At_outer {| tries := tries s; success := success s;
                           requests := requests s; sleeps := S (sleeps s) |}
      | Response status_code results =>
          if (status_code =? 200)%Z then
            let s := {| tries := tries s; success := true;
                        requests := requests s; sleeps := sleeps s |} in
            match results with
            | None => At_outer s
            | Some preserved_packages =>
                if existsb has_article_id preserved_packages
                then Raised TypeError s
                else At_inner (page + 1) s
            end
          else At_inner page s
      end
  | Returned _ _ _ | Raised _ _ => c
  end.

Fixpoint run_untagged (fuel : nat) (c : control) : control :=
  match fuel with
  | O => c
  | S fuel' => run_untagged fuel' (step_untagged c)
  end.
End LookupUntagged.

(** The look-up after [fuel] steps of its loops. *)
Definition get_preserved_version_hash_and_size (retries : Z) (server : registry)
    (article_id version_no : value) (fuel : nat) : result control :=
  tag <- get_preserved_version_tag version_no ;;
  match tag with
  | VStr version_tag => Ok (run retries server article_id version_tag fuel initial)
  | _ => Ok (run_untagged retries server article_id fuel initial)
  end.

(** ** The object-storage look-up *)

(** [s.replace(old, '')]: the occurrences of [old] are dropped from left to
    right, each one whole ([skip] counts what is left of the current one). *)
Fixpoint remove_all_from (old s : string) (skip : nat) : string :=
  match s with
  | EmptyString => EmptyString
  | String a s' =>
      match skip with
      | S k => remove_all_from old s' k
      | O =>
          if prefix old s then remove_all_from old s' (String.length old - 1)
          else String a (remove_all_from old s' 0)
      end
  end.

Definition remove_all (old s : string) : string :=
  if String.eqb old "" then s else remove_all_from old s 0.

(** The scan of the parsed listing: the first package whose name has the
    article id and the tag in it. *)
Fixpoint check_wasabi_scan (article_id version_no : value)
    (preserved_packages : list (string * string)) : result (string * value) :=
  match preserved_packages with
  | [] => Ok ("", VInt 0)
  | package :: rest =>
      if PyStr.contains (PyRepr.str article_id) (fst package) then
        match version_no with
        | VStr tag =>
            if PyStr.contains tag (fst package) then
              h <- index_from_end (PyStr.split "_"%char (fst package)) 1 ;;
              Ok (remove_all ".tar" h, VStr (snd package))
            else check_wasabi_scan article_id version_no rest
        | _ => Raise TypeError
        end
      else check_wasabi_scan article_id version_no rest
  end.

(** The body of [check_wasabi] from the text that [wasabi.list_bucket]
    returned. *)
Definition check_wasabi_listed (preservation_bucket : string)
    (article_id version_no : value) : result (string * value) :=
  preserved_packages <- get_filenames_and_sizes_from_ls preservation_bucket ;;
  version_no <- check_wasabi_version_tag version_no ;;
  check_wasabi_scan article_id version_no preserved_packages.

(** The [Wasabi] object of [bagger/wasabi.py]. *)
Record wasabi : Type := {
  access_key : value;
  secret_key : value;
  s3host : value;
  s3hostbucket : value
}.

(** [Wasabi(...)]: [__init__] takes four arguments besides [self]; a call
    with another number of them is a [TypeError]. *)
Definition Wasabi (args : list value) : result wasabi :=
  match args with
  | [access_key; secret_key; s3host; s3hostbucket] =>
      Ok {| access_key := access_key; secret_key := secret_key;
            s3host := s3host; s3hostbucket := s3hostbucket |}
  | _ => Raise TypeError
  end.

(** [wasabi_config[key]] *)
Definition config_get (wasabi_config : list (string * string)) (key : string)
  : result string :=
  match assoc key wasabi_config with
  | Some v => Ok v
  | None => Raise KeyError
  end.

Section CheckWasabi.
(** What [s3cmd ls] prints, as [wasabi.list_bucket] returns it. *)
Variable list_bucket : wasabi -> string -> string * string.

(** [config] is the ['Wasabi'] section of the configuration file as
    [configparser] presents it, [None] when the file has no such section. *)
Definition check_wasabi (config : option (list (string * string)))
    (article_id version_no : value) : result (string * value) :=
  let quote := String PyRepr.dquote EmptyString in
  wasabi_config <- match config with
                   | Some section => Ok section
                   | None => Raise KeyError
                   end ;;
  host <- config_get wasabi_config "host" ;;
  let wasabi_host := remove_all quote host in
  bucket <- config_get wasabi_config "bucket" ;;
  let wasabi_bucket := "s3://" ++ remove_all quote bucket in
  host_bucket <- config_get wasabi_config "host_bucket" ;;
  let wasabi_host_bucket := remove_all quote host_bucket in
  access_key <- config_get wasabi_config "access_key" ;;
  let wasabi_access_key := remove_all quote access_key in
  secret_key <- config_get wasabi_config "secret_key" ;;
  let wasabi_secret_key := remove_all quote secret_key in
  wasabi <- Wasabi [VStr wasabi_access_key; VStr wasabi_secret_key;
                    VStr wasabi_host; VStr wasabi_bucket;
                    VStr wasabi_host_bucket; VBool true] ;;
  let (preservation_bucket, bucket_error) := list_bucket wasabi wasabi_bucket in
  check_wasabi_listed preservation_bucket article_id version_no.
End CheckWasabi.

(** [compare_hash] *)
Definition compare_hash (article_version_hash preserved_pkg_hash : string) : bool :=
  String.eqb article_version_hash preserved_pkg_hash.

(** ** What the claims are stated with *)

(** The last [/]-delimited segment of a line, and its second-to-last
    whitespace-delimited token. *)
Definition filename_of_line (line : string) : string :=
  last (PyStr.rsplit1 PyStr.slash line) "".

Definition size_of_line (line : string) : string :=
  let tokens := PyStr.split_ws line in
  nth (List.length tokens - 2) tokens "".

Definition kept_lines (ls : string) : list string :=
  filter (fun line => negb (String.eqb (filename_of_line line) ""))
         (PyStr.splitlines ls).

Definition has_two_tokens (line : string) : bool :=
  (2 <=? List.length (PyStr.split_ws line))%nat.

(** The sort key as the claim words it: the tuple of
    [str(element.get(key, ""))] for [key] through [keys].  It is written out
    here, apart from the normaliser. *)
Definition str_get_tuple (keys : list string) (element : value) : list string :=
  map (fun key =>
         PyRepr.str
           match element with
           | VDict entries =>
               match assoc key entries with
               | Some x => x
               | None => VStr ""
               end
           | _ => VStr ""
           end)
      keys.

(** One tuple of text is below another: at the first place where they
    differ the text is below, or the first tuple ends there. *)
Inductive tuple_lt : list string -> list string -> Prop :=
| tuple_lt_shorter (y : string) (ys : list string) : tuple_lt [] (y :: ys)
| tuple_lt_here (x y : string) (xs ys : list string) :
    String.ltb x y = true -> tuple_lt (x :: xs) (y :: ys)
| tuple_lt_later (x : string) (xs ys : list string) :
    tuple_lt xs ys -> tuple_lt (x :: xs) (x :: ys).

(** [a] may stand in front of [b] in a sorted list: [b] is not below [a]. *)
Definition non_desc {A : Type} (ltb : A -> A -> bool) (a b : A) : Prop :=
  ltb b a = false.

Definition before {A : Type} (lt : A -> A -> result bool) (a b : A) : Prop :=
  lt b a = Ok false.

Definition ascending (keys : list string) : Prop :=
  StronglySorted (fun a b => String.ltb a b = true) keys.

(** The assignments [d[k] = v] for the entries [(k, v)], one after the
    other. *)
Definition assign_all (acc : pydict) (entries : list (string * value)) : pydict :=
  fold_left (fun a kv => dict_set a (fst kv) (snd kv)) entries acc.

Definition result_map {A B : Type} (f : A -> B) (r : result A) : result B :=
  match r with
  | Ok a => Ok (f a)
  | Raise e => Raise e
  end.

(** ** Sample inputs *)

Module Sample.

Definition entry (n : string) (d : bool) (sz : Z) : dirent :=
  {| name := n; is_dir := d; size := sz |}.

Definition dir (entries : list dirent) : directory :=
  {| dir_readable := true; dir_entries := entries |}.

(** A readable root without a directory of article 42. *)
Definition no_article_dir : filesystem :=
  [("/store", dir [entry "article_99" true 4096])].

(** The article directory is there, its version directory is not. *)
Definition no_version_dir : filesystem :=
  [("/store", dir [entry "article_42" true 4096]);
   ("/store/article_42", dir [entry "v02" true 4096])].

(** The version directory is there, without a UAL_RDM directory. *)
Definition no_ual_rdm_dir : filesystem :=
  [("/store", dir [entry "article_42" true 4096]);
   ("/store/article_42", dir [entry "v01" true 4096]);
   ("/store/article_42/v01", dir [entry "DATA" true 4096])].

(** All three levels, and two files to count. *)
Definition complete : filesystem :=
  [("/store", dir [entry "article_42" true 4096]);
   ("/store/article_42", dir [entry "v01" true 4096]);
   ("/store/article_42/v01", dir [entry "UAL_RDM" true 4096]);
   ("/store/article_42/v01/UAL_RDM",
    dir [entry "readme.txt" false 10; entry "deposit.pdf" false 32])].

(** A registry that answers every request with status 500. *)
Definition always_500 : registry := fun _ _ => Response 500 None.


(** A registry that cannot be reached. *)
Definition unreachable : registry := fun _ _ => Transport_error.

(** A version record with a null field, as the only object of a store. *)
Definition version_data : pydict :=
  [("id", VInt 7); ("title", VNone); ("size", VInt 100); ("version", VInt 1)].

Definition writable_tmp : tempdir :=
  {| tmp_path := "/tmp"; tmp_exists := true; tmp_writable := true;
     tmp_open := fun _ => Ok tt |}.

End Sample.

(** ** What the further properties are stated with *)

(** The tag of a number: [v], then the decimal text, with one [0] in front
    of a single digit. *)
Definition tag_of_int (n : Z) : string :=
  String "v"%char
    (if ((0 <=? n) && (n <? 10))%Z%bool
     then String "0"%char (PyStr.str_of_int n)
     else PyStr.str_of_int n).

(** Every character of a text passes a test. *)
Fixpoint all_chars (p : ascii -> bool) (s : string) : bool :=
  match s with
  | EmptyString => true
  | String a s' => p a && all_chars p s'
  end.

Definition no_slash (s : string) : bool :=
  all_chars (fun a => negb (Ascii.eqb a PyStr.slash)) s.

Definition no_linebreak (s : string) : bool :=
  all_chars (fun a => negb (PyStr.is_linebreak a)) s.

Definition no_space (s : string) : bool :=
  all_chars (fun a => negb (PyStr.is_space a)) s.

Definition isSome {A : Type} (o : option A) : bool :=
  match o with
  | Some _ => true
  | None => false
  end.

(** The configuration has the section and the five keys that
    [check_wasabi] reads. *)
Definition has_wasabi_keys (config : option (list (string * string))) : bool :=
  match config with
  | Some section =>
      isSome (assoc "host" section) && isSome (assoc "bucket" section)
      && isSome (assoc "host_bucket" section)
      && isSome (assoc "access_key" section)
      && isSome (assoc "secret_key" section)
  | None => false
  end.

(** A field as [standardize_api_result] leaves it: the empty text in place
    of [None] and of the text [null]. *)
Definition standardize_field (kv : string * value) : string * value :=
  (fst kv,
   if (py_eq (snd kv) (VStr "null") || is_none (snd kv))%bool
   then VStr "" else snd kv).

(** The first directory among the entries whose name has [sub] in it. *)
Definition matching_dir (sub : string) (items : list dirent) : option dirent :=
  find (fun item => is_dir item && PyStr.contains sub (name item))%bool items.

Definition total_size (items : list dirent) : Z :=
  fold_right (fun item acc => (size item + acc)%Z) 0%Z items.

(** ** More sample inputs *)

Module Cases.

Definition bag : package :=
  {| bag_name := "pkg_42_v03_abcdef123"; payload_size := 77 |}.

Definition other_bag : package :=
  {| bag_name := "pkg_17_v01_0123"; payload_size := 5 |}.

(** The bag of article 42 is on the second page. *)
Definition two_pages : registry :=
  fun _ page => if (page =? 2)%Z then Response 200 (Some [other_bag; bag])
                else Response 200 (Some [other_bag]).

Definition two_pages_content (i : nat) : list package :=
  match i with
  | O => [other_bag]
  | _ => [other_bag; bag]
  end.

(** The first request is answered, the later ones fail. *)
Definition fails_after_first_page : registry :=
  fun i _ => match i with
             | O => Response 200 (Some [other_bag])
             | _ => Transport_error
             end.


(** Every page is an empty list. *)
Definition always_empty_list : registry := fun _ _ => Response 200 (Some []).

(** A temporary directory that is there and cannot be written to. *)
Definition read_only_tmp : tempdir :=
  {| tmp_path := "/tmp"; tmp_exists := true; tmp_writable := false;
     tmp_open := fun _ => Raise PermissionError |}.

End Cases.

(** * Properties *)

Local Open Scope list_scope.

(** ** The result monad *)

Lemma comprehension_ext {A B : Type} (c c' : A -> result bool)
    (e e' : A -> result B) (l : list A) :
  (forall x, c x = c' x) -> (forall x, e x = e' x) ->
  comprehension c e l = comprehension c' e' l.
Proof.
  intros Hc He. induction l as [|x l IH]; simpl; [reflexivity|].
  rewrite Hc, He, IH. reflexivity.
Qed.

Lemma index_from_end_last {A : Type} (pre : list A) (x : A) :
  index_from_end (pre ++ [x]) 1 = Ok x.
Proof.
  unfold index_from_end. rewrite length_app. cbn [List.length].
  destruct (Nat.leb_spec 1 (List.length pre + 1)) as [_|H]; [|lia].
  replace (List.length pre + 1 - 1)%nat with (List.length pre) by lia.
  rewrite nth_error_app2 by lia. rewrite Nat.sub_diag. reflexivity.
Qed.

Lemma index_from_end_last_default {A : Type} (l : list A) (d : A) :
  l <> [] -> index_from_end l 1 = Ok (last l d).
Proof.
  intros Hl. destruct (exists_last Hl) as [pre [x ->]].
  rewrite index_from_end_last, last_last. reflexivity.
Qed.

(** ** The two ways to the last segment *)

Section LastSegment.
Variable c : ascii.

Lemma split_not_nil (s : string) : PyStr.split c s <> [].
Proof.
  destruct s as [|a s]; simpl; [discriminate|].
  destruct (Ascii.eqb a c); [discriminate|].
  destruct (PyStr.split c s); discriminate.
Qed.

Lemma rsplit1_not_nil (s : string) : PyStr.rsplit1 c s <> [].
Proof.
  destruct s as [|a s]; simpl; [discriminate|].
  destruct (PyStr.rsplit1 c s) as [|hd [|tl rest]]; try discriminate.
  destruct (Ascii.eqb a c); discriminate.
Qed.

(** Either there is no separator and both give the text itself, or both
    end with the text after the last separator. *)
Lemma split_rsplit1_shape (s : string) :
  (exists t, PyStr.rsplit1 c s = [t] /\ PyStr.split c s = [t])
  \/ (exists hd tl pre,
        PyStr.rsplit1 c s = [hd; tl] /\ PyStr.split c s = pre ++ [tl]
        /\ pre <> []).
Proof.
  induction s as [|a s IH]; simpl.
  - left. exists EmptyString. split; reflexivity.
  - destruct IH as [[t [Hr Hs]] | [hd [tl [pre [Hr [Hs Hpre]]]]]];
      rewrite Hr, Hs.
    + destruct (Ascii.eqb a c).
      * right. exists EmptyString, t, [EmptyString].
        repeat split; discriminate.
      * left. exists (String a t). split; reflexivity.
    + right. destruct (Ascii.eqb a c).
      * exists (String a hd), tl, (EmptyString :: pre).
        repeat split; discriminate.
      * destruct pre as [|seg pre']; [contradiction|]. simpl.
        exists (String a hd), tl, (String a seg :: pre').
        repeat split; discriminate.
Qed.

Lemma last_segment_agree (s : string) :
  index_from_end (PyStr.rsplit1 c s) 1 = index_from_end (PyStr.split c s) 1.
Proof.
  destruct (split_rsplit1_shape s)
    as [[t [Hr Hs]] | [hd [tl [pre [Hr [Hs _]]]]]]; rewrite Hr, Hs.
  - reflexivity.
  - rewrite index_from_end_last. reflexivity.
Qed.
End LastSegment.

Lemma comprehension_total_filter {A B : Type} (p : A -> bool) (f : A -> B)
    (l : list A) :
  comprehension (fun x => Ok (p x)) (fun x => Ok (f x)) l
  = Ok (map f (filter p l)).
Proof.
  induction l as [|x l IH]; simpl; [reflexivity|].
  destruct (p x); simpl; rewrite IH; reflexivity.
Qed.

Lemma filename_of_line_index (line : string) :
  index_from_end (PyStr.rsplit1 PyStr.slash line) 1 = Ok (filename_of_line line).
Proof.
  apply index_from_end_last_default, rsplit1_not_nil.
Qed.

(** C10.  The filename parser of [bagger/wasabi.py], which cuts each line
    once from the right, and the one of [redata_preservation/wasabi.py],
    which cuts it at every slash, return the same list of filenames for
    every listing text, and neither raises. *)
Theorem get_filenames_from_ls_agree (ls : string) :
  Bagger.get_filenames_from_ls ls = Redata.get_filenames_from_ls ls
  /\ Bagger.get_filenames_from_ls ls
     = Ok (map filename_of_line (kept_lines ls)).
Proof.
  split.
  - unfold Bagger.get_filenames_from_ls, Redata.get_filenames_from_ls.
    apply comprehension_ext; intros line;
      rewrite last_segment_agree; reflexivity.
  - unfold Bagger.get_filenames_from_ls, kept_lines.
    rewrite <- comprehension_total_filter.
    apply comprehension_ext; intros line;
      rewrite filename_of_line_index; reflexivity.
Qed.

(** ** The listing with sizes *)

Lemma size_of_line_index (line : string) :
  index_from_end (PyStr.split_ws line) 2
  = if has_two_tokens line then Ok (size_of_line line) else Raise IndexError.
Proof.
  unfold index_from_end, has_two_tokens, size_of_line.
  destruct (2 <=? List.length (PyStr.split_ws line))%nat eqn:E; [|reflexivity].
  apply Nat.leb_le in E.
  destruct (nth_error (PyStr.split_ws line) (List.length (PyStr.split_ws line) - 2))
    eqn:N.
  - f_equal. symmetry. apply nth_error_nth. exact N.
  - apply nth_error_None in N. lia.
Qed.

Lemma comprehension_sizes (lines : list string) :
  comprehension
    (fun line =>
       name <- index_from_end (PyStr.rsplit1 PyStr.slash line) 1 ;;
       Ok (negb (String.eqb name "")))
    (fun line =>
       name <- index_from_end (PyStr.rsplit1 PyStr.slash line) 1 ;;
       size <- index_from_end (PyStr.split_ws line) 2 ;;
       Ok (name, size))
    lines
  = let kept := filter (fun line => negb (String.eqb (filename_of_line line) ""))
                       lines in
    if forallb has_two_tokens kept
    then Ok (map (fun line => (filename_of_line line, size_of_line line)) kept)
    else Raise IndexError.
Proof.
  induction lines as [|line lines IH]; [reflexivity|].
  cbn [comprehension filter]. rewrite filename_of_line_index. cbn [bind].
  destruct (negb (String.eqb (filename_of_line line) "")); [|exact IH].
  rewrite size_of_line_index. cbn [forallb map].
  destruct (has_two_tokens line); cbn [bind andb]; [|reflexivity].
  rewrite IH. cbv zeta.
  destruct (forallb has_two_tokens _); reflexivity.
Qed.

(** C4, as the code has it.  A line whose last [/]-delimited segment is
    empty is skipped.  When every other line has at least two
    whitespace-delimited tokens, the parser returns, line by line, the last
    segment paired with the second-to-last token; when one of them has
    fewer, it raises [IndexError]. *)
Theorem get_filenames_and_sizes_from_ls_spec (ls : string) :
  get_filenames_and_sizes_from_ls ls
  = if forallb has_two_tokens (kept_lines ls)
    then Ok (map (fun line => (filename_of_line line, size_of_line line))
                 (kept_lines ls))
    else Raise IndexError.
Proof.
  unfold get_filenames_and_sizes_from_ls, kept_lines.
  apply comprehension_sizes.
Qed.

(** C4, as stated, fails: a line that is a bare file name has a last
    segment and a single token. *)
Lemma get_filenames_and_sizes_from_ls_raises :
  ~ (exists l, get_filenames_and_sizes_from_ls "file.tar" = Ok l).
Proof.
  intros [l H]. vm_compute in H. discriminate H.
Qed.

(** The listing line of the specification. *)
Example example_listing_line :
  get_filenames_and_sizes_from_ls
    ("2024-01-01 100 s3://bucket/path/file_abc123.tar"
       ++ String (ascii_of_nat 10) "  DIR  s3://bucket/path/dir/")%string
  = Ok [("file_abc123.tar", "100")].
Proof. vm_compute. reflexivity. Qed.

(** ** Version tags *)

Lemma get_preserved_version_tag_passthrough (version_no : value) :
  PyStr.contains "v" (PyRepr.str version_no) = true ->
  get_preserved_version_tag version_no = Ok version_no
  /\ check_wasabi_version_tag version_no = Ok version_no.
Proof.
  intros H. unfold get_preserved_version_tag, check_wasabi_version_tag.
  rewrite H. split; reflexivity.
Qed.

Lemma version_tags_agree (version_no : value) :
  get_preserved_version_tag version_no = check_wasabi_version_tag version_no.
Proof. reflexivity. Qed.

Lemma contains_v_uint (d : Decimal.uint) :
  PyStr.contains "v" (NilEmpty.string_of_uint d) = false.
Proof. induction d; simpl; try rewrite IHd; reflexivity. Qed.

Lemma contains_v_nilzero (d : Decimal.uint) :
  PyStr.contains "v" (NilZero.string_of_uint d) = false.
Proof.
  unfold NilZero.string_of_uint.
  destruct d; cbv iota; try apply contains_v_uint. reflexivity.
Qed.

(** The decimal text of a number has no letter [v]. *)
Lemma contains_v_str_of_int (n : Z) :
  PyStr.contains "v" (PyStr.str_of_int n) = false.
Proof.
  unfold PyStr.str_of_int, NilZero.string_of_int.
  destruct (Z.to_int n) as [d|d]; [apply contains_v_nilzero|].
  cbn [PyStr.contains]. rewrite contains_v_nilzero. reflexivity.
Qed.

Lemma contains_v_cons (a : ascii) (s : string) :
  PyStr.contains "v" (String a s)
  = (Ascii.eqb a "v"%char || PyStr.contains "v" s)%bool.
Proof.
  cbn [PyStr.contains prefix].
  destruct (ascii_dec "v"%char a) as [<-|Hne].
  - destruct s; reflexivity.
  - apply not_eq_sym, Ascii.eqb_neq in Hne. rewrite Hne. reflexivity.
Qed.

Lemma lstrip_contains_v (s : string) :
  PyStr.contains "v" s = true -> PyStr.contains "v" (PyInt.lstrip s) = true.
Proof.
  induction s as [|a s IH]; [discriminate|]. intros H. cbn [PyInt.lstrip].
  destruct (PyInt.is_space a) eqn:Ea; [|exact H].
  apply IH. rewrite contains_v_cons in H.
  destruct (Ascii.eqb_spec a "v"%char) as [->|_]; [discriminate Ea|exact H].
Qed.

Lemma rstrip_contains_v (s : string) :
  PyStr.contains "v" s = true -> PyStr.contains "v" (PyInt.rstrip s) = true.
Proof.
  induction s as [|a s IH]; [discriminate|]. intros H. cbn [PyInt.rstrip].
  rewrite contains_v_cons in H.
  destruct (PyStr.contains "v" s) eqn:Es.
  - specialize (IH eq_refl). destruct (PyInt.rstrip s) as [|b r];
      [discriminate IH|].
    rewrite contains_v_cons, IH. apply Bool.orb_true_r.
  - rewrite Bool.orb_false_r in H. apply Ascii.eqb_eq in H. subst a.
    destruct (PyInt.rstrip s); reflexivity.
Qed.

Lemma digits_contains_v (s : string) (acc : Z) (after_digit : bool) :
  PyStr.contains "v" s = true -> PyInt.digits s acc after_digit = None.
Proof.
  revert acc after_digit. induction s as [|a s IH]; [discriminate|].
  intros acc after_digit H. rewrite contains_v_cons in H. cbn [PyInt.digits].
  destruct (Ascii.eqb_spec a "v"%char) as [->|_]; [reflexivity|].
  cbn [orb] in H. destruct (PyInt.digit_of a); [apply IH; exact H|].
  destruct (Ascii.eqb a "_" && after_digit)%bool; [apply IH; exact H|reflexivity].
Qed.

(** [int] of a text with a [v] in it is a [ValueError]. *)
Lemma of_string_contains_v (s : string) :
  PyStr.contains "v" s = true -> PyInt.of_string s = Raise ValueError.
Proof.
  intros H. apply lstrip_contains_v, rstrip_contains_v in H.
  unfold PyInt.of_string. destruct (PyInt.rstrip (PyInt.lstrip s)) as [|a r] eqn:E;
    [reflexivity|].
  destruct (Ascii.eqb_spec a "-"%char) as [->|_].
  - rewrite contains_v_cons in H. cbn [Ascii.eqb Bool.eqb orb] in H.
    rewrite (digits_contains_v r 0 false H). reflexivity.
  - destruct (Ascii.eqb_spec a "+"%char) as [->|_].
    + rewrite contains_v_cons in H. cbn [Ascii.eqb Bool.eqb orb] in H.
      rewrite (digits_contains_v r 0 false H). reflexivity.
    + rewrite (digits_contains_v (String a r) 0 false H). reflexivity.
Qed.

(** C8.  The registry look-up, the object-storage look-up and the payload
    estimator all turn 1 into v01, 9 into v09 and 10 into v10.  Whatever the
    version number, when its text has a [v] in it (v3, say) the two look-ups
    return it as it is, unchanged; the estimator has no such case: it only
    ever builds the tag from the number, and on such an input it raises. *)
Theorem version_tag_formatting (version_no : value) :
  (get_preserved_version_tag (VInt 1) = Ok (VStr "v01")
   /\ get_preserved_version_tag (VInt 9) = Ok (VStr "v09")
   /\ get_preserved_version_tag (VInt 10) = Ok (VStr "v10")
   /\ get_preserved_version_tag (VStr "v3") = Ok (VStr "v3"))
  /\ (check_wasabi_version_tag (VInt 1) = Ok (VStr "v01")
      /\ check_wasabi_version_tag (VInt 9) = Ok (VStr "v09")
      /\ check_wasabi_version_tag (VInt 10) = Ok (VStr "v10")
      /\ check_wasabi_version_tag (VStr "v3") = Ok (VStr "v3"))
  /\ (calculate_payload_version_tag (VInt 1) = Ok "v01"
      /\ calculate_payload_version_tag (VInt 9) = Ok "v09"
      /\ calculate_payload_version_tag (VInt 10) = Ok "v10"
      /\ calculate_payload_version_tag (VStr "v3") = Raise ValueError)
  /\ (PyStr.contains "v" (PyRepr.str version_no) = true ->
      get_preserved_version_tag version_no = Ok version_no
      /\ check_wasabi_version_tag version_no = Ok version_no
      /\ exists e, calculate_payload_version_tag version_no = Raise e)
  /\ (forall version,
        calculate_payload_version_tag version_no = Ok version ->
        exists n,
          PyInt.int version_no = Ok n
          /\ version
             = ("v" ++ (if (9 <? n)%Z then PyRepr.str version_no
                        else PyStr.zfill (PyRepr.str version_no) 2))%string).
Proof.
  split; [repeat split; vm_compute; reflexivity|].
  split; [repeat split; vm_compute; reflexivity|].
  split; [repeat split; vm_compute; reflexivity|].
  split.
  - intros H.
    destruct (get_preserved_version_tag_passthrough version_no H) as [H1 H2].
    split; [exact H1|]. split; [exact H2|].
    unfold calculate_payload_version_tag.
    destruct version_no as [|b|n|s|l|d]; cbn [PyInt.int bind].
    + discriminate H.
    + destruct b; discriminate H.
    + cbn [PyRepr.str PyRepr.repr] in H.
      rewrite contains_v_str_of_int in H. discriminate H.
    + cbn [PyRepr.str] in H. rewrite (of_string_contains_v s H).
      exists ValueError. reflexivity.
    + exists TypeError. reflexivity.
    + exists TypeError. reflexivity.
  - intros version H. unfold calculate_payload_version_tag in H.
    destruct (PyInt.int version_no) as [n|e]; cbn [bind] in H; [|discriminate].
    exists n. split; [reflexivity|].
    destruct (9 <? n)%Z; injection H as <-; reflexivity.
Qed.

Lemma version_tag_formatting_witness :
  get_preserved_version_tag (VStr "rev3") = Ok (VStr "rev3")
  /\ check_wasabi_version_tag (VStr "rev3") = Ok (VStr "rev3")
  /\ exists e, calculate_payload_version_tag (VStr "rev3") = Raise e.
Proof.
  apply (version_tag_formatting (VStr "rev3")). reflexivity.
Defined.

(** ** The size of the UAL_RDM directory *)

Lemma calculate_ual_rdm_size_unreadable (fs : filesystem) (root : string)
    (article_id : value) (version : string) :
  Os.access fs root = false ->
  calculate_ual_rdm_size fs root article_id version = Ok 0%Z.
Proof.
  intros H. unfold calculate_ual_rdm_size. rewrite H. reflexivity.
Qed.

Lemma first_matching_dir_none (sub parent : string) (items : list dirent)
    (path : string) :
  (forall item, In item items ->
                (is_dir item && PyStr.contains sub (name item))%bool = false) ->
  first_matching_dir sub parent items path = path.
Proof.
  intros H. unfold first_matching_dir.
  destruct (find _ items) as [item|] eqn:F; [|reflexivity].
  apply find_some in F. destruct F as [Hin Hm].
  rewrite (H item Hin) in Hm. discriminate Hm.
Qed.

(** A readable root with no directory for the article: the scan goes on
    with the empty path, which [os.scandir] refuses. *)
Lemma calculate_ual_rdm_size_no_article_dir (fs : filesystem) (root : string)
    (d : directory) (article_id : value) (version : string) :
  root <> ""%string ->
  assoc root fs = Some d ->
  dir_readable d = true ->
  (forall item, In item (dir_entries d) ->
     (is_dir item && PyStr.contains (PyRepr.str article_id) (name item))%bool
     = false) ->
  calculate_ual_rdm_size fs root article_id version = Raise FileNotFoundError.
Proof.
  intros Hroot Hd Hr Hnone. unfold calculate_ual_rdm_size, Os.access.
  rewrite Hd, Hr. unfold Os.scandir at 1.
  apply String.eqb_neq in Hroot. rewrite Hroot, Hd, Hr. cbn [bind].
  rewrite first_matching_dir_none by exact Hnone. reflexivity.
Qed.

(** C2 on the code.  With a readable root, the size of the UAL_RDM
    directory is not 0 when a level is absent: the article directory, the
    version directory or the UAL_RDM directory missing, the function raises
    [FileNotFoundError]; it returns 0 for an unreadable root and the sum of
    the sizes when all levels are there. *)
Theorem calculate_ual_rdm_size_absent_level :
  calculate_ual_rdm_size Sample.no_article_dir "/store" (VInt 42) "v01"
  = Raise FileNotFoundError
  /\ calculate_ual_rdm_size Sample.no_version_dir "/store" (VInt 42) "v01"
     = Raise FileNotFoundError
  /\ calculate_ual_rdm_size Sample.no_ual_rdm_dir "/store" (VInt 42) "v01"
     = Raise FileNotFoundError
  /\ calculate_ual_rdm_size Sample.complete "/nowhere" (VInt 42) "v01" = Ok 0%Z
  /\ calculate_ual_rdm_size Sample.complete "/store" (VInt 42) "v01" = Ok 42%Z.
Proof. repeat split; vm_compute; reflexivity. Qed.

(** ** The registry look-up *)

Section LookupFacts.
Variables (retries : Z) (server : registry).
Variables (article_id : value) (version_tag : string).

Lemma run_returned (fuel : nat) (h : string) (n : Z) (s : lookup_state) :
  run retries server article_id version_tag fuel (Returned h n s)
  = Returned h n s.
Proof. induction fuel as [|fuel IH]; [reflexivity|exact IH]. Qed.

Lemma run_raised (fuel : nat) (e : exn) (s : lookup_state) :
  run retries server article_id version_tag fuel (Raised e s) = Raised e s.
Proof. induction fuel as [|fuel IH]; [reflexivity|exact IH]. Qed.

Lemma run_add (m n : nat) (c : control) :
  run retries server article_id version_tag (m + n) c
  = run retries server article_id version_tag n
        (run retries server article_id version_tag m c).
Proof.
  revert c. induction m as [|m IH]; intros c; [reflexivity|].
  cbn [Nat.add]. apply IH.
Qed.

(** While the answers are not 200, a step of the inner loop comes back
    to the same test with one more request made and nothing else
    changed. *)
Lemma run_non_200 (n : nat) (page : Z) (s : lookup_state) :
  (forall i, exists code results,
      server i page = Response code results /\ code <> 200%Z) ->
  run retries server article_id version_tag n (At_inner page s)
  = At_inner page {| tries := tries s; success := success s;
                     requests := n + requests s; sleeps := sleeps s |}.
Proof.
  intros Hserver. revert s. induction n as [|n IH]; intros s.
  - destruct s; reflexivity.
  - cbn [run step count_request requests pred].
    destruct (Hserver (requests s)) as [code [results [-> Hcode]]].
    apply Z.eqb_neq in Hcode. rewrite Hcode.
    rewrite IH. unfold count_request. cbn [tries success requests sleeps].
    f_equal. f_equal. lia.
Qed.
End LookupFacts.

(** C3 on the code.  With [retries = 2] and a registry that answers 500 to
    every request, the look-up is, after any number [n] of requests, still
    at the test of the inner loop for page 1, its [tries] at 1 and no sleep
    made: the answer is not counted against [retries], nothing is raised
    and the look-up does not end. *)
Theorem non_200_is_not_retried (n : nat) :
  get_preserved_version_hash_and_size 2 Sample.always_500 (VInt 42) (VInt 3) (S n)
  = Ok (At_inner 1 {| tries := 1; success := false;
                      requests := n; sleeps := 0 |}).
Proof.
  unfold get_preserved_version_hash_and_size.
  replace (get_preserved_version_tag (VInt 3)) with (Ok (VStr "v03"))
    by (vm_compute; reflexivity).
  cbn [bind run]. unfold initial.
  change (step 2 Sample.always_500 (VInt 42) "v03" (At_outer _))
    with (At_inner 1 {| tries := 1; success := false;
                        requests := 0; sleeps := 0 |}).
  rewrite run_non_200.
  - cbn. rewrite Nat.add_0_r. reflexivity.
  - intros i. exists 500%Z, None. split; [reflexivity|discriminate].
Qed.

(** A transport failure, by contrast, is retried: with [retries = 2] the
    second failure is raised, after two requests and one sleep. *)
Example example_transport_failure :
  get_preserved_version_hash_and_size 2 Sample.unreachable (VInt 42) (VInt 3) 4
  = Ok (Raised RequestException
          {| tries := 3; success := false; requests := 2; sleeps := 1 |}).
Proof. vm_compute. reflexivity. Qed.




(** ** The caller's dict *)

(** What [standardize_api_result] returns is the address it was given. *)
Lemma standardize_api_result_alias (api_result r : ref) (st st' : store) :
  standardize_api_result api_result st = Ok (r, st') -> r = api_result.
Proof.
  unfold standardize_api_result.
  destruct (deref st api_result) as [d|e]; cbn [bind]; [|discriminate].
  destruct (standardize_loop api_result (map fst d) st) as [st1|e];
    cbn [bind]; [|discriminate].
  intros H. injection H as <- _. reflexivity.
Qed.

(** C9 on the code.  [calculate_json_file_size] leaves the record of its
    caller changed: [standardize_api_result] assigns through a second name
    of the caller's dict, so a field that was [None] holds the empty text
    afterwards. *)
Theorem calculate_json_file_size_mutates (json_dumps : value -> string) :
  exists n,
    calculate_json_file_size json_dumps Sample.writable_tmp 0%nat
                             [Sample.version_data]
    = Ok (n, [[("id", VInt 7); ("title", VStr ""); ("size", VInt 100);
               ("version", VInt 1)]])
    /\ getitem [Sample.version_data] 0%nat "title" = Ok VNone.
Proof.
  eexists. split; [|reflexivity]. vm_compute. reflexivity.
Qed.

(** ** Orders *)

Lemma ascii_compare_refl (a : ascii) : Ascii.compare a a = Eq.
Proof. unfold Ascii.compare. apply N.compare_refl. Qed.

Lemma string_compare_refl (s : string) : String.compare s s = Eq.
Proof.
  induction s as [|a s IH]; simpl; [reflexivity|].
  rewrite ascii_compare_refl. exact IH.
Qed.

Lemma string_compare_lt_trans (a b c : string) :
  String.compare a b = Lt -> String.compare b c = Lt -> String.compare a c = Lt.
Proof.
  revert b c. induction a as [|x a IH]; intros [|y b] [|z c]; simpl;
    try discriminate; try reflexivity.
  unfold Ascii.compare.
  destruct (N.compare_spec (N_of_ascii x) (N_of_ascii y)) as [Exy|Lxy|Gxy];
    destruct (N.compare_spec (N_of_ascii y) (N_of_ascii z)) as [Eyz|Lyz|Gyz];
    destruct (N.compare_spec (N_of_ascii x) (N_of_ascii z)) as [Exz|Lxz|Gxz];
    try discriminate; try reflexivity; try lia.
  apply IH.
Qed.

Lemma string_ltb_irrefl (s : string) : String.ltb s s = false.
Proof. unfold String.ltb. rewrite string_compare_refl. reflexivity. Qed.

Lemma string_ltb_asym (a b : string) :
  String.ltb a b = true -> String.ltb b a = false.
Proof.
  unfold String.ltb. rewrite (String.compare_antisym b a).
  destruct (String.compare a b); simpl; intros H; try discriminate; reflexivity.
Qed.

Lemma string_ltb_antisym (a b : string) :
  String.ltb a b = false -> String.ltb b a = false -> a = b.
Proof.
  unfold String.ltb. rewrite (String.compare_antisym b a).
  destruct (String.compare a b) eqn:E; simpl; intros H1 H2; try discriminate.
  apply String.compare_eq_iff in E. exact E.
Qed.

Lemma string_ltb_trans (a b c : string) :
  String.ltb a b = true -> String.ltb b c = true -> String.ltb a c = true.
Proof.
  unfold String.ltb. intros H1 H2.
  destruct (String.compare a b) eqn:E1; try discriminate.
  destruct (String.compare b c) eqn:E2; try discriminate.
  rewrite (string_compare_lt_trans a b c E1 E2). reflexivity.
Qed.

(** [a <= b <= c] gives [a <= c], where [a <= b] reads [b < a] is false. *)
Lemma string_le_trans (a b c : string) :
  String.ltb b a = false -> String.ltb c b = false -> String.ltb c a = false.
Proof.
  intros H1 H2.
  destruct (String.ltb a b) eqn:Eab.
  - destruct (String.ltb b c) eqn:Ebc.
    + apply string_ltb_asym. eapply string_ltb_trans; eassumption.
    + rewrite (string_ltb_antisym c b H2 Ebc). exact H1.
  - rewrite (string_ltb_antisym a b Eab H1). exact H2.
Qed.

Lemma tuple_ltb_asym (xs ys : list string) :
  tuple_ltb xs ys = true -> tuple_ltb ys xs = false.
Proof.
  revert ys. induction xs as [|x xs IH]; intros [|y ys]; simpl;
    try discriminate; try reflexivity.
  rewrite (String.eqb_sym y x). destruct (String.eqb x y).
  - apply IH.
  - apply string_ltb_asym.
Qed.

Lemma tuple_le_trans (a b c : list string) :
  tuple_ltb b a = false -> tuple_ltb c b = false -> tuple_ltb c a = false.
Proof.
  revert b c. induction a as [|x a IH]; intros [|y b] [|z c]; simpl;
    try discriminate; try reflexivity.
  destruct (String.eqb_spec y x) as [Eyx|Nyx];
    destruct (String.eqb_spec z y) as [Ezy|Nzy];
    destruct (String.eqb_spec z x) as [Ezx|Nzx];
    subst; try contradiction; try (intros; assumption).
  - apply IH.
  - intros H1 H2. exfalso. apply Nyx. symmetry.
    apply string_ltb_antisym; assumption.
  - apply string_le_trans.
Qed.

(** ** [sorted], when the order is total *)

Section TotalSort.
Context {A : Type} (ltb : A -> A -> bool).

Lemma insert_total_perm (x : A) (l : list A) :
  Permutation (x :: l) (insert_total ltb x l).
Proof.
  induction l as [|y l IH]; simpl; [apply Permutation_refl|].
  destruct (ltb y x); [|apply Permutation_refl].
  eapply Permutation_trans; [apply perm_swap|].
  apply perm_skip. exact IH.
Qed.

Lemma sorted_total_perm (l : list A) : Permutation l (sorted_total ltb l).
Proof.
  induction l as [|x l IH]; simpl; [apply Permutation_refl|].
  eapply Permutation_trans; [apply perm_skip; exact IH|].
  apply insert_total_perm.
Qed.

Lemma sorted_total_fixed (l : list A) :
  Sorted (non_desc ltb) l -> sorted_total ltb l = l.
Proof.
  induction 1 as [|x l Hl IH Hx]; simpl; [reflexivity|].
  rewrite IH. destruct Hx as [|y l Hxy]; simpl; [reflexivity|].
  unfold non_desc in Hxy. rewrite Hxy. reflexivity.
Qed.

Hypothesis ltb_asym : forall a b, ltb a b = true -> ltb b a = false.

Lemma insert_total_hd (x y : A) (l : list A) :
  non_desc ltb y x -> HdRel (non_desc ltb) y l ->
  HdRel (non_desc ltb) y (insert_total ltb x l).
Proof.
  intros Hyx Hl. destruct l as [|z l]; simpl.
  - constructor. exact Hyx.
  - destruct (ltb z x); constructor.
    + inversion Hl; assumption.
    + exact Hyx.
Qed.

Lemma insert_total_sorted (x : A) (l : list A) :
  Sorted (non_desc ltb) l -> Sorted (non_desc ltb) (insert_total ltb x l).
Proof.
  induction 1 as [|y l Hl IH Hy]; simpl.
  - repeat constructor.
  - destruct (ltb y x) eqn:E.
    + constructor; [exact IH|].
      apply insert_total_hd; [|exact Hy]. apply ltb_asym. exact E.
    + constructor; [constructor; assumption|]. constructor. exact E.
Qed.

Lemma sorted_total_sorted (l : list A) : Sorted (non_desc ltb) (sorted_total ltb l).
Proof.
  induction l as [|x l IH]; simpl; [constructor|].
  apply insert_total_sorted. exact IH.
Qed.

Lemma sorted_total_idempotent (l : list A) :
  sorted_total ltb (sorted_total ltb l) = sorted_total ltb l.
Proof. apply sorted_total_fixed, sorted_total_sorted. Qed.

Hypothesis le_trans :
  forall a b c, non_desc ltb a b -> non_desc ltb b c -> non_desc ltb a c.

Lemma sorted_total_strongly_sorted (l : list A) :
  StronglySorted (non_desc ltb) (sorted_total ltb l).
Proof.
  apply Sorted_StronglySorted; [|apply sorted_total_sorted].
  intros a b c. apply le_trans.
Qed.

Hypothesis ltb_antisym : forall a b, ltb a b = false -> ltb b a = false -> a = b.

(** Two sorted lists with the same items are the same list. *)
Lemma strongly_sorted_unique (l1 l2 : list A) :
  StronglySorted (non_desc ltb) l1 -> StronglySorted (non_desc ltb) l2 ->
  Permutation l1 l2 -> l1 = l2.
Proof.
  intros H1. revert l2. induction H1 as [|x l1 Hl1 IH Hx]; intros l2 H2 HP.
  - apply Permutation_nil in HP. congruence.
  - destruct H2 as [|y l2 Hl2 Hy].
    + apply Permutation_sym, Permutation_nil in HP. discriminate.
    + assert (x = y) as ->.
      { assert (In x (y :: l2)) as Hin1
          by (eapply Permutation_in; [exact HP|left; reflexivity]).
        assert (In y (x :: l1)) as Hin2
          by (eapply Permutation_in;
              [apply Permutation_sym; exact HP|left; reflexivity]).
        destruct Hin1 as [->|Hin1]; [reflexivity|].
        destruct Hin2 as [->|Hin2]; [reflexivity|].
        rewrite Forall_forall in Hx, Hy.
        apply ltb_antisym; [apply (Hy x Hin1)|apply (Hx y Hin2)]. }
      f_equal. apply IH; [exact Hl2|].
      eapply Permutation_cons_inv. exact HP.
Qed.

Lemma sorted_total_of_perm (l1 l2 : list A) :
  Permutation l1 l2 -> sorted_total ltb l1 = sorted_total ltb l2.
Proof.
  intros HP. apply strongly_sorted_unique;
    try apply sorted_total_strongly_sorted.
  eapply Permutation_trans; [apply Permutation_sym, sorted_total_perm|].
  eapply Permutation_trans; [exact HP|apply sorted_total_perm].
Qed.
End TotalSort.

(** ** [sorted], when a comparison can raise *)

Section RaisingSort.
Context {A : Type} (lt : A -> A -> result bool).

Lemma insert_sorted_perm (x : A) (l r : list A) :
  insert_sorted lt x l = Ok r -> Permutation (x :: l) r.
Proof.
  revert r. induction l as [|y l IH]; simpl; intros r H.
  - injection H as <-. apply Permutation_refl.
  - destruct (lt y x) as [[|]|e]; cbn [bind] in H; try discriminate.
    + destruct (insert_sorted lt x l) as [r'|e]; cbn [bind] in H;
        try discriminate.
      injection H as <-.
      eapply Permutation_trans; [apply perm_swap|].
      apply perm_skip. apply IH. reflexivity.
    + injection H as <-. apply Permutation_refl.
Qed.

Lemma py_sorted_perm (l r : list A) :
  py_sorted lt l = Ok r -> Permutation l r.
Proof.
  revert r. induction l as [|x l IH]; simpl; intros r H.
  - injection H as <-. apply Permutation_refl.
  - destruct (py_sorted lt l) as [s|e]; cbn [bind] in H; try discriminate.
    eapply Permutation_trans; [apply perm_skip, IH; reflexivity|].
    apply insert_sorted_perm. exact H.
Qed.

Lemma py_sorted_fixed (l : list A) :
  Sorted (before lt) l -> py_sorted lt l = Ok l.
Proof.
  induction 1 as [|x l Hl IH Hx]; simpl; [reflexivity|].
  rewrite IH. cbn [bind]. destruct Hx as [|y l Hxy]; simpl; [reflexivity|].
  unfold before in Hxy. rewrite Hxy. reflexivity.
Qed.

Hypothesis lt_asym : forall a b, lt a b = Ok true -> lt b a = Ok false.

Lemma insert_sorted_hd (x y : A) (l r : list A) :
  before lt y x -> HdRel (before lt) y l -> insert_sorted lt x l = Ok r ->
  HdRel (before lt) y r.
Proof.
  intros Hyx Hl H. destruct l as [|z l]; simpl in H.
  - injection H as <-. constructor. exact Hyx.
  - destruct (lt z x) as [[|]|e]; cbn [bind] in H; try discriminate.
    + destruct (insert_sorted lt x l) as [r'|e]; cbn [bind] in H;
        try discriminate.
      injection H as <-. constructor. inversion Hl; assumption.
    + injection H as <-. constructor. exact Hyx.
Qed.

Lemma insert_sorted_sorted (x : A) (l r : list A) :
  Sorted (before lt) l -> insert_sorted lt x l = Ok r -> Sorted (before lt) r.
Proof.
  intros Hl. revert r. induction Hl as [|y l Hl IH Hy]; simpl; intros r H.
  - injection H as <-. repeat constructor.
  - destruct (lt y x) as [[|]|e] eqn:E; cbn [bind] in H; try discriminate.
    + destruct (insert_sorted lt x l) as [r'|e] eqn:I; cbn [bind] in H;
        try discriminate.
      injection H as <-. constructor; [apply IH; reflexivity|].
      eapply insert_sorted_hd; [|exact Hy|exact I].
      apply lt_asym. exact E.
    + injection H as <-.
      constructor; [constructor; assumption|]. constructor. exact E.
Qed.

Lemma py_sorted_sorted (l r : list A) :
  py_sorted lt l = Ok r -> Sorted (before lt) r.
Proof.
  revert r. induction l as [|x l IH]; simpl; intros r H.
  - injection H as <-. constructor.
  - destruct (py_sorted lt l) as [s|e]; cbn [bind] in H; try discriminate.
    eapply insert_sorted_sorted; [apply IH; reflexivity|exact H].
Qed.

(** Sorting what [sorted] returned returns it again, and does not raise. *)
Lemma py_sorted_idempotent (l r : list A) :
  py_sorted lt l = Ok r -> py_sorted lt r = Ok r.
Proof. intros H. apply py_sorted_fixed. eapply py_sorted_sorted. exact H. Qed.
End RaisingSort.

Section Stability.
Context {A : Type} (ltb : A -> A -> bool).

(** Items of which none is below another keep their order. *)
Lemma insert_total_stable (p : A -> bool) (x : A) (l : list A) :
  (forall a b, p a = true -> p b = true -> ltb a b = false) ->
  filter p (insert_total ltb x l) = filter p (x :: l).
Proof.
  intros Hp. induction l as [|y l IH]; [reflexivity|].
  cbn [insert_total]. destruct (ltb y x) eqn:E; [|reflexivity].
  cbn [filter] in *. rewrite IH.
  destruct (p x) eqn:Px; [|reflexivity].
  destruct (p y) eqn:Py; [|reflexivity].
  rewrite (Hp y x Py Px) in E. discriminate E.
Qed.

Lemma sorted_total_stable (p : A -> bool) (l : list A) :
  (forall a b, p a = true -> p b = true -> ltb a b = false) ->
  filter p (sorted_total ltb l) = filter p l.
Proof.
  intros Hp. induction l as [|x l IH]; [reflexivity|].
  cbn [sorted_total]. rewrite insert_total_stable by exact Hp.
  cbn [filter]. rewrite IH. reflexivity.
Qed.

Lemma strongly_sorted_strict (l : list A) :
  (forall a b, ltb a b = false -> ltb b a = false -> a = b) ->
  StronglySorted (non_desc ltb) l -> NoDup l ->
  StronglySorted (fun a b => ltb a b = true) l.
Proof.
  intros Hanti. induction 1 as [|x l Hl IH Hx]; intros Hnd; constructor.
  - apply IH. inversion Hnd; assumption.
  - rewrite Forall_forall in *. intros y Hy.
    destruct (ltb x y) eqn:E; [reflexivity|]. exfalso.
    assert (x = y) as -> by (apply Hanti; [exact E|apply Hx; exact Hy]).
    inversion Hnd; contradiction.
Qed.
End Stability.

(** ** The normaliser on a list of dicts *)

Lemma tuple_ltb_irrefl (xs : list string) : tuple_ltb xs xs = false.
Proof.
  induction xs as [|x xs IH]; simpl; [reflexivity|].
  rewrite String.eqb_refl. exact IH.
Qed.

Lemma sorted_set_strict (keys : list string) :
  StronglySorted (fun a b => String.ltb a b = true) (sorted_set keys).
Proof.
  unfold sorted_set. apply strongly_sorted_strict.
  - apply string_ltb_antisym.
  - apply sorted_total_strongly_sorted.
    + apply string_ltb_asym.
    + intros a b c. apply string_le_trans.
  - eapply Permutation_NoDup; [apply sorted_total_perm|].
    apply NoDup_nodup.
Qed.

Lemma sorted_set_In (keys : list string) (k : string) :
  In k (sorted_set keys) <-> In k keys.
Proof.
  unfold sorted_set. rewrite <- (nodup_In string_dec keys k). split.
  - apply Permutation_in, Permutation_sym, sorted_total_perm.
  - apply Permutation_in, sorted_total_perm.
Qed.

Lemma sorter_api_result_dicts (l : list value) :
  l <> [] -> forallb is_dict l = true ->
  sorter_api_result (VList l)
  = Ok (VList (sorted_by_key tuple_ltb
                 (dicts_sort_key (sorted_set (flat_map dict_keys l))) l)).
Proof.
  intros Hl Hd. cbn [sorter_api_result]. rewrite Hd.
  destruct l as [|x l]; [contradiction|]. reflexivity.
Qed.

Lemma tuple_ltb_lt (xs ys : list string) :
  tuple_ltb xs ys = true <-> tuple_lt xs ys.
Proof.
  split.
  - revert ys. induction xs as [|x xs IH]; intros [|y ys]; simpl;
      try discriminate.
    + intros _. constructor.
    + destruct (String.eqb_spec x y) as [->|_].
      * intros H. apply tuple_lt_later, IH, H.
      * intros H. apply tuple_lt_here, H.
  - induction 1 as [y ys|x y xs ys H|x xs ys _ IH]; simpl.
    + reflexivity.
    + destruct (String.eqb_spec x y) as [->|_]; [|exact H].
      rewrite string_ltb_irrefl in H. discriminate H.
    + rewrite String.eqb_refl. exact IH.
Qed.

Lemma str_get_tuple_code (keys : list string) (d : value) :
  dicts_sort_key keys d = str_get_tuple keys d.
Proof. reflexivity. Qed.

Lemma StronglySorted_impl {A : Type} (R Q : A -> A -> Prop) (l : list A) :
  (forall a b, R a b -> Q a b) -> StronglySorted R l -> StronglySorted Q l.
Proof.
  intros H. induction 1 as [|x l Hl IH Hx]; constructor; [exact IH|].
  eapply Forall_impl; [|exact Hx]. intros b. apply H.
Qed.

(** C6.  On a non-empty list whose items are all dicts, the normaliser
    returns the items themselves, not normalised, sorted by the tuple of
    [str(item.get(key, ""))] taken across the keys of all the items, each key
    once, in ascending order.  That is: there is the list [keys] of exactly
    the keys that some item has, strictly ascending; the result is a
    permutation of the list; in it no item has a tuple below the tuple of an
    item in front of it; and items with the same tuple keep their order. *)
Theorem sorter_api_result_list_of_dicts (l : list value) :
  l <> [] -> forallb is_dict l = true ->
  exists keys l',
    ascending keys
    /\ (forall k, In k keys
                  <-> exists entries, In (VDict entries) l
                                      /\ In k (map fst entries))
    /\ sorter_api_result (VList l) = Ok (VList l')
    /\ Permutation l l'
    /\ StronglySorted
         (fun a b => ~ tuple_lt (str_get_tuple keys b) (str_get_tuple keys a)) l'
    /\ (forall p : value -> bool,
          (forall a b, p a = true -> p b = true ->
                       str_get_tuple keys a = str_get_tuple keys b) ->
          filter p l' = filter p l).
Proof.
  intros Hl Hd.
  set (keys := sorted_set (flat_map dict_keys l)).
  exists keys, (sorted_by_key tuple_ltb (dicts_sort_key keys) l).
  split; [apply sorted_set_strict|].
  split.
  { intros k. unfold keys. rewrite sorted_set_In, in_flat_map. split.
    - intros [d [Hin Hk]]. destruct d as [| | | | |entries];
        try contradiction. exists entries. split; assumption.
    - intros [entries [Hin Hk]]. exists (VDict entries). split; assumption. }
  split; [apply sorter_api_result_dicts; assumption|].
  unfold sorted_by_key. split; [apply sorted_total_perm|].
  split.
  { apply (StronglySorted_impl
             (non_desc (fun a b => tuple_ltb (dicts_sort_key keys a)
                                             (dicts_sort_key keys b)))).
    - intros a b Hab Hlt. unfold non_desc in Hab.
      change (tuple_ltb (str_get_tuple keys b) (str_get_tuple keys a) = false)
        in Hab.
      apply tuple_ltb_lt in Hlt. congruence.
    - apply sorted_total_strongly_sorted.
      + intros a b. apply tuple_ltb_asym.
      + intros a b c. unfold non_desc. apply tuple_le_trans. }
  intros p Hp. apply sorted_total_stable. intros a b Pa Pb.
  change (tuple_ltb (str_get_tuple keys a) (str_get_tuple keys b) = false).
  rewrite (Hp a b Pa Pb). apply tuple_ltb_irrefl.
Qed.

Lemma sorter_api_result_list_of_dicts_witness :
  let l := [VDict [("x", VInt 2)]; VDict [("y", VNone); ("x", VInt 10)]] in
  exists keys l',
    ascending keys
    /\ (forall k, In k keys
                  <-> exists entries, In (VDict entries) l
                                      /\ In k (map fst entries))
    /\ sorter_api_result (VList l) = Ok (VList l')
    /\ Permutation l l'
    /\ StronglySorted
         (fun a b => ~ tuple_lt (str_get_tuple keys b) (str_get_tuple keys a)) l'
    /\ (forall p : value -> bool,
          (forall a b, p a = true -> p b = true ->
                       str_get_tuple keys a = str_get_tuple keys b) ->
          filter p l' = filter p l).
Proof.
  apply (sorter_api_result_list_of_dicts
           [VDict [("x", VInt 2)]; VDict [("y", VNone); ("x", VInt 10)]]).
  - discriminate.
  - reflexivity.
Defined.

(** The keys are [x] and [y]; ["10"] is below ["2"] as text. *)
Example example_dicts_by_text :
  sorter_api_result
    (VList [VDict [("x", VInt 2)]; VDict [("y", VNone); ("x", VInt 10)]])
  = Ok (VList [VDict [("y", VNone); ("x", VInt 10)]; VDict [("x", VInt 2)]]).
Proof. vm_compute. reflexivity. Qed.

(** ** The normaliser on a dict *)

Lemma assoc_In {B : Type} (k : string) (v : B) (d : list (string * B)) :
  assoc k d = Some v -> In (k, v) d.
Proof.
  induction d as [|[k' v'] d IH]; simpl; [discriminate|].
  destruct (String.eqb_spec k k') as [->|_].
  - intros H. injection H as ->. left. reflexivity.
  - intros H. right. apply IH. exact H.
Qed.

Lemma assoc_None {B : Type} (k : string) (d : list (string * B)) :
  assoc k d = None <-> ~ In k (map fst d).
Proof.
  induction d as [|[k' v'] d IH]; simpl; [tauto|].
  destruct (String.eqb_spec k k') as [->|Hk].
  - split; [discriminate|]. intros H. exfalso. apply H. left. reflexivity.
  - rewrite IH. split; [|tauto]. intros H [E|Hin]; [congruence|tauto].
Qed.

Lemma In_assoc {B : Type} (k : string) (v : B) (d : list (string * B)) :
  NoDup (map fst d) -> In (k, v) d -> assoc k d = Some v.
Proof.
  induction d as [|[k' v'] d IH]; simpl; [contradiction|].
  intros Hnd Hin. inversion Hnd as [|? ? Hk' Hnd']; subst.
  destruct (String.eqb_spec k k') as [->|Hk].
  - destruct Hin as [E|Hin]; [congruence|].
    exfalso. apply Hk'. apply (in_map fst) in Hin. exact Hin.
  - destruct Hin as [E|Hin]; [congruence|]. apply IH; assumption.
Qed.

(** With distinct keys, looking a key up does not depend on the order of
    the entries. *)
Lemma assoc_perm {B : Type} (k : string) (d1 d2 : list (string * B)) :
  NoDup (map fst d1) -> Permutation d1 d2 -> assoc k d1 = assoc k d2.
Proof.
  intros Hnd HP.
  assert (NoDup (map fst d2)) as Hnd2
    by (eapply Permutation_NoDup; [apply Permutation_map; exact HP|exact Hnd]).
  destruct (assoc k d1) as [v|] eqn:E.
  - symmetry. apply In_assoc; [exact Hnd2|].
    eapply Permutation_in; [exact HP|]. apply assoc_In. exact E.
  - symmetry. apply assoc_None. rewrite assoc_None in E.
    intros Hin. apply E.
    eapply Permutation_in; [apply Permutation_sym, Permutation_map; exact HP|].
    exact Hin.
Qed.

Section DictLoopFacts.
Variable sorter : value -> result value.

Lemma sorted_item_assoc (key : string) (d : pydict) :
  sorted_item sorter key d
  = match assoc key d with
    | Some x => if String.eqb key "authors" then Ok x else sorter x
    | None => Raise KeyError
    end.
Proof.
  induction d as [|[k x] d IH]; simpl; [reflexivity|].
  destruct (String.eqb key k); [reflexivity|exact IH].
Qed.

Lemma sorted_dict_loop_ext (d1 d2 : pydict) (keys : list string) (acc : pydict) :
  (forall k, assoc k d1 = assoc k d2) ->
  sorted_dict_loop sorter d1 keys acc = sorted_dict_loop sorter d2 keys acc.
Proof.
  intros H. revert acc. induction keys as [|k keys IH]; intros acc;
    [reflexivity|].
  cbn [sorted_dict_loop]. rewrite !sorted_item_assoc, H.
  destruct (match assoc k d2 with Some _ => _ | None => _ end);
    cbn [bind]; [apply IH|reflexivity].
Qed.
End DictLoopFacts.

Lemma sorted_keys_of_perm (l1 l2 : list string) :
  Permutation l1 l2 ->
  sorted_total String.ltb l1 = sorted_total String.ltb l2.
Proof.
  apply sorted_total_of_perm.
  - apply string_ltb_asym.
  - intros a b c. apply string_le_trans.
  - apply string_ltb_antisym.
Qed.

(** C1.  Two dicts with the same entries in a different order have the
    same normal form, entry for entry and in the same order (or the
    normaliser raises the same exception on both); so whatever serialises
    the normal form, [json.dumps] in particular, writes the same text for
    both. *)
Theorem sorter_api_result_key_order (d1 d2 : pydict) :
  NoDup (map fst d1) ->
  Permutation d1 d2 ->
  sorter_api_result (VDict d1) = sorter_api_result (VDict d2)
  /\ forall json_dumps : value -> string,
       result_map json_dumps (sorter_api_result (VDict d1))
       = result_map json_dumps (sorter_api_result (VDict d2)).
Proof.
  intros Hnd HP.
  assert (sorter_api_result (VDict d1) = sorter_api_result (VDict d2)) as E.
  { cbn [sorter_api_result].
    rewrite (sorted_keys_of_perm (map fst d1) (map fst d2))
      by (apply Permutation_map; exact HP).
    rewrite (sorted_dict_loop_ext sorter_api_result d1 d2); [reflexivity|].
    intros k. apply assoc_perm; assumption. }
  split; [exact E|]. intros json_dumps. rewrite E. reflexivity.
Qed.

Lemma sorter_api_result_key_order_witness :
  let d1 := [("b", VInt 1); ("a", VList [VInt 2; VInt 1])] in
  let d2 := [("a", VList [VInt 2; VInt 1]); ("b", VInt 1)] in
  sorter_api_result (VDict d1) = sorter_api_result (VDict d2)
  /\ forall json_dumps : value -> string,
       result_map json_dumps (sorter_api_result (VDict d1))
       = result_map json_dumps (sorter_api_result (VDict d2)).
Proof.
  apply (sorter_api_result_key_order
           [("b", VInt 1); ("a", VList [VInt 2; VInt 1])]
           [("a", VList [VInt 2; VInt 1]); ("b", VInt 1)]).
  - simpl. repeat constructor; simpl; intuition discriminate.
  - apply perm_swap.
Defined.

Example example_dict_normal_form :
  sorter_api_result (VDict [("b", VInt 1); ("a", VList [VInt 2; VInt 1])])
  = Ok (VDict [("a", VList [VInt 1; VInt 2]); ("b", VInt 1)]).
Proof. vm_compute. reflexivity. Qed.

(** ** Induction on values *)

Lemma value_ind_nested (P : value -> Prop) :
  P VNone -> (forall b, P (VBool b)) -> (forall n, P (VInt n)) ->
  (forall s, P (VStr s)) ->
  (forall l, Forall P l -> P (VList l)) ->
  (forall d, Forall (fun kv => P (snd kv)) d -> P (VDict d)) ->
  forall v, P v.
Proof.
  intros HNone HBool HInt HStr HList HDict. fix IH 1.
  intros [|b|n|s|l|d].
  - exact HNone.
  - apply HBool.
  - apply HInt.
  - apply HStr.
  - apply HList. induction l as [|x l IHl]; constructor; [apply IH|exact IHl].
  - apply HDict. induction d as [|[k x] d IHd]; constructor;
      [apply IH|exact IHd].
Qed.

(** ** Equality and order of values *)

Lemma lookup_eq_with_assoc (eq : value -> value -> bool) (a : pydict)
    (k : string) (v : value) :
  lookup_eq_with eq a k v
  = match assoc k a with
    | Some x => eq x v
    | None => false
    end.
Proof.
  induction a as [|[k' x] a IH]; simpl; [reflexivity|].
  destruct (String.eqb k k'); [reflexivity|exact IH].
Qed.

Lemma list_eq_with_sym (xs ys : list value) :
  Forall (fun x => forall y, py_eq x y = py_eq y x) xs ->
  list_eq_with py_eq xs ys = list_eq_with py_eq ys xs.
Proof.
  intros H. revert ys. induction H as [|x xs Hx _ IH]; intros [|y ys]; simpl;
    try reflexivity.
  rewrite Hx, IH. reflexivity.
Qed.

Lemma dict_incl_with_sym (d e : pydict) :
  Forall (fun kv => forall y, py_eq (snd kv) y = py_eq y (snd kv)) d ->
  dict_incl_with py_eq d e = dict_incl_rev_with py_eq e d.
Proof.
  unfold dict_incl_rev_with.
  induction 1 as [|[k v] d Hv _ IH]; simpl; [reflexivity|].
  rewrite IH, lookup_eq_with_assoc. f_equal.
  destruct (assoc k e); [apply Hv|reflexivity].
Qed.

Lemma dict_incl_rev_with_sym (d e : pydict) :
  Forall (fun kv => forall y, py_eq (snd kv) y = py_eq y (snd kv)) d ->
  dict_incl_rev_with py_eq d e = dict_incl_with py_eq e d.
Proof.
  intros H. unfold dict_incl_rev_with.
  induction e as [|[k v] e IH]; simpl; [reflexivity|].
  rewrite IH, lookup_eq_with_assoc. f_equal.
  destruct (assoc k d) as [x|] eqn:E; [|reflexivity].
  apply assoc_In in E. rewrite Forall_forall in H. apply (H (k, x) E).
Qed.

Lemma py_eq_sym (a b : value) : py_eq a b = py_eq b a.
Proof.
  revert b. induction a as [|p|m|s|l IH|d IH] using value_ind_nested;
    intros [|q|n|t|l'|d']; simpl; try reflexivity;
    try apply Z.eqb_sym; try apply String.eqb_sym.
  - apply list_eq_with_sym. exact IH.
  - rewrite (dict_incl_with_sym d d' IH), (dict_incl_rev_with_sym d d' IH).
    apply Bool.andb_comm.
Qed.

Lemma list_lt_with_asym (xs ys : list value) :
  Forall (fun x => forall y, py_lt x y = Ok true -> py_lt y x = Ok false) xs ->
  list_lt_with py_eq py_lt xs ys = Ok true ->
  list_lt_with py_eq py_lt ys xs = Ok false.
Proof.
  intros H. revert ys. induction H as [|x xs Hx _ IH]; intros [|y ys]; simpl;
    try discriminate; try reflexivity.
  rewrite (py_eq_sym y x). destruct (py_eq x y); [apply IH|apply Hx].
Qed.

Lemma Z_ltb_asym (m n : Z) : Ok (m <? n)%Z = Ok true -> Ok (n <? m)%Z = Ok false.
Proof.
  intros H. injection H as H. f_equal. apply Z.ltb_lt in H. apply Z.ltb_ge. lia.
Qed.

(** When [a < b] holds, [b < a] is defined and false. *)
Lemma py_lt_asym (a b : value) : py_lt a b = Ok true -> py_lt b a = Ok false.
Proof.
  revert b. induction a as [|p|m|s|l IH|d IH] using value_ind_nested;
    intros [|q|n|t|l'|d']; simpl; try discriminate; try apply Z_ltb_asym.
  - intros H. injection H as H. f_equal. apply string_ltb_asym. exact H.
  - apply list_lt_with_asym. exact IH.
Qed.

(** ** Normalising twice *)

Lemma mapM_Forall2 {A B : Type} (f : A -> result B) (l : list A) (r : list B) :
  mapM f l = Ok r -> Forall2 (fun x y => f x = Ok y) l r.
Proof.
  revert r. induction l as [|x l IH]; simpl; intros r H.
  - injection H as <-. constructor.
  - destruct (f x) as [y|e] eqn:E; cbn [bind] in H; try discriminate.
    destruct (mapM f l) as [ys|e]; cbn [bind] in H; try discriminate.
    injection H as <-. constructor; [exact E|apply IH; reflexivity].
Qed.

Lemma mapM_fixed {A : Type} (f : A -> result A) (l : list A) :
  (forall x, In x l -> f x = Ok x) -> mapM f l = Ok l.
Proof.
  induction l as [|x l IH]; simpl; intros H; [reflexivity|].
  rewrite (H x) by (left; reflexivity). cbn [bind].
  rewrite IH by (intros y Hy; apply H; right; exact Hy). reflexivity.
Qed.

Lemma mapM_combine {A B : Type} (g : A -> result B) (ks : list A) (ys : list B) :
  List.length ks = List.length ys ->
  (forall k y, In (k, y) (combine ks ys) -> g k = Ok y) ->
  mapM g ks = Ok ys.
Proof.
  revert ys. induction ks as [|k ks IH]; intros [|y ys] Hlen H;
    try discriminate; [reflexivity|].
  simpl in *. rewrite (H k y) by (left; reflexivity). cbn [bind].
  rewrite (IH ys); [reflexivity|lia|].
  intros k' y' Hin. apply H. right. exact Hin.
Qed.

Lemma Forall2_In_r {A B : Type} (R : A -> B -> Prop) (l : list A) (r : list B)
    (y : B) :
  Forall2 R l r -> In y r -> exists x, In x l /\ R x y.
Proof.
  induction 1 as [|x y' l r Hxy _ IH]; simpl; [contradiction|].
  intros [->|Hin].
  - exists x. split; [left; reflexivity|exact Hxy].
  - destruct (IH Hin) as [x' [Hx' HR]]. exists x'.
    split; [right; exact Hx'|exact HR].
Qed.

Lemma Forall2_combine {A B : Type} (R : A -> B -> Prop) (l : list A)
    (r : list B) (x : A) (y : B) :
  Forall2 R l r -> In (x, y) (combine l r) -> R x y.
Proof.
  induction 1 as [|x' y' l r Hxy _ IH]; simpl; [contradiction|].
  intros [E|Hin]; [injection E as <- <-; exact Hxy|apply IH; exact Hin].
Qed.

Lemma Forall2_length_eq {A B : Type} (R : A -> B -> Prop) (l : list A)
    (r : list B) :
  Forall2 R l r -> List.length l = List.length r.
Proof. induction 1; simpl; congruence. Qed.

Lemma forallb_perm {A : Type} (p : A -> bool) (l l' : list A) :
  Permutation l l' -> forallb p l = forallb p l'.
Proof.
  induction 1 as [|x l l' _ IH|x y l|l l' l'' _ IH1 _ IH2]; simpl.
  - reflexivity.
  - rewrite IH. reflexivity.
  - destruct (p x), (p y); reflexivity.
  - congruence.
Qed.

Lemma forallb_Forall2 {A : Type} (p : A -> bool) (R : A -> A -> Prop)
    (l r : list A) :
  (forall x y, R x y -> p y = p x) -> Forall2 R l r -> forallb p r = forallb p l.
Proof.
  intros Hp. induction 1 as [|x y l r Hxy _ IH]; simpl; [reflexivity|].
  rewrite (Hp x y Hxy), IH. reflexivity.
Qed.

Lemma sorter_api_result_is_dict (v w : value) :
  sorter_api_result v = Ok w -> is_dict w = is_dict v.
Proof.
  destruct v as [|b|n|s|l|d]; cbn [sorter_api_result]; intros H;
    try (injection H as <-; reflexivity).
  - destruct (forallb is_dict l && negb (Nat.eqb (List.length l) 0))%bool.
    + injection H as <-. reflexivity.
    + destruct (mapM sorter_api_result l) as [items|e]; cbn [bind] in H;
        try discriminate.
      destruct (py_sorted py_lt items) as [r|e]; cbn [bind] in H;
        try discriminate.
      injection H as <-. reflexivity.
  - destruct (sorted_dict_loop _ _ _ _) as [r|e]; cbn [bind] in H;
      try discriminate.
    injection H as <-. reflexivity.
Qed.

Lemma sorted_set_ext (a b : list string) :
  (forall k, In k a <-> In k b) -> sorted_set a = sorted_set b.
Proof.
  intros H. unfold sorted_set. apply sorted_keys_of_perm.
  apply NoDup_Permutation; try apply NoDup_nodup.
  intros k. rewrite !nodup_In. apply H.
Qed.

Lemma flat_map_In_perm {A B : Type} (f : A -> list B) (l l' : list A) (y : B) :
  Permutation l l' -> In y (flat_map f l) <-> In y (flat_map f l').
Proof.
  intros HP. rewrite !in_flat_map. split; intros [x [Hx Hy]]; exists x;
    (split; [|exact Hy]).
  - eapply Permutation_in; [exact HP|exact Hx].
  - eapply Permutation_in; [apply Permutation_sym; exact HP|exact Hx].
Qed.

Lemma dict_set_fresh {B : Type} (d : list (string * B)) (k : string) (v : B) :
  ~ In k (map fst d) -> dict_set d k v = d ++ [(k, v)].
Proof.
  induction d as [|[k' v'] d IH]; simpl; intros H; [reflexivity|].
  destruct (String.eqb_spec k k') as [->|_]; [tauto|].
  rewrite IH by tauto. reflexivity.
Qed.

(** Over distinct keys, the loop of the dict branch appends one entry per
    key, in the order of the keys. *)
Lemma sorted_dict_loop_distinct (sorter : value -> result value) (d : pydict)
    (keys : list string) (acc : pydict) :
  NoDup keys -> (forall k, In k keys -> ~ In k (map fst acc)) ->
  sorted_dict_loop sorter d keys acc
  = (ys <- mapM (fun k => sorted_item sorter k d) keys ;;
     Ok (acc ++ combine keys ys)).
Proof.
  intros Hnd. revert acc. induction Hnd as [|k keys Hk Hnd IH]; intros acc Hacc.
  - simpl. rewrite app_nil_r. reflexivity.
  - cbn [sorted_dict_loop mapM].
    destruct (sorted_item sorter k d) as [x|e]; cbn [bind]; [|reflexivity].
    rewrite dict_set_fresh by (apply Hacc; left; reflexivity).
    rewrite IH.
    + destruct (mapM _ keys) as [ys|e]; cbn [bind combine]; [|reflexivity].
      rewrite <- app_assoc. reflexivity.
    + intros k' Hk'. rewrite map_app, in_app_iff. simpl.
      intros [Hin|[E|[]]].
      * apply (Hacc k'); [right; exact Hk'|exact Hin].
      * subst k'. contradiction.
Qed.

Lemma sorted_item_inv (sorter : value -> result value) (k : string) (d : pydict)
    (y : value) :
  sorted_item sorter k d = Ok y ->
  exists x, In (k, x) d
            /\ (if String.eqb k "authors" then y = x else sorter x = Ok y).
Proof.
  rewrite sorted_item_assoc. destruct (assoc k d) as [x|] eqn:E; [|discriminate].
  intros H. exists x. split; [apply assoc_In; exact E|].
  destruct (String.eqb k "authors"); [injection H as <-; reflexivity|exact H].
Qed.

Lemma map_fst_combine {A B : Type} (l : list A) (r : list B) :
  List.length l = List.length r -> map fst (combine l r) = l.
Proof.
  revert r. induction l as [|x l IH]; intros [|y r] H; try discriminate;
    [reflexivity|].
  simpl. rewrite IH by (simpl in H; lia). reflexivity.
Qed.

(** *** The loop of the dict branch, whatever the keys *)

Lemma sorted_dict_loop_assign (sorter : value -> result value) (d : pydict)
    (keys : list string) (acc : pydict) :
  sorted_dict_loop sorter d keys acc
  = (ys <- mapM (fun k => sorted_item sorter k d) keys ;;
     Ok (assign_all acc (combine keys ys))).
Proof.
  revert acc. induction keys as [|k keys IH]; intros acc; [reflexivity|].
  cbn [sorted_dict_loop mapM].
  destruct (sorted_item sorter k d) as [x|e]; cbn [bind]; [|reflexivity].
  rewrite IH. destruct (mapM _ keys) as [ys|e]; reflexivity.
Qed.

Lemma dict_set_keys_old {B : Type} (d : list (string * B)) (k : string) (v : B) :
  In k (map fst d) -> map fst (dict_set d k v) = map fst d.
Proof.
  induction d as [|[k' v'] d IH]; simpl; [contradiction|].
  destruct (String.eqb_spec k k') as [->|Hk]; [reflexivity|].
  intros [E|Hin]; [congruence|]. simpl. rewrite IH by exact Hin. reflexivity.
Qed.

Lemma dict_set_In {B : Type} (d : list (string * B)) (k k' : string) (v v' : B) :
  In (k', v') (dict_set d k v) -> (k', v') = (k, v) \/ In (k', v') d.
Proof.
  induction d as [|[k0 v0] d IH]; simpl.
  - intros [E|[]]. left. symmetry. exact E.
  - destruct (String.eqb_spec k k0) as [->|_]; simpl.
    + intros [E|Hin]; [left; symmetry; exact E|right; right; exact Hin].
    + intros [E|Hin]; [right; left; exact E|].
      destruct (IH Hin) as [E|Hin']; [left; exact E|right; right; exact Hin'].
Qed.

Lemma ascending_snoc (keys : list string) (k : string) :
  ascending keys -> Forall (fun k' => String.ltb k' k = true) keys ->
  ascending (keys ++ [k]).
Proof.
  unfold ascending. induction 1 as [|k0 keys Hs IH Hk0]; simpl; intros Hk.
  - repeat constructor.
  - inversion Hk as [|? ? Hk0k Hk']; subst. constructor; [apply IH; exact Hk'|].
    apply Forall_app. split; [exact Hk0|]. repeat constructor. exact Hk0k.
Qed.

Lemma ascending_NoDup (keys : list string) : ascending keys -> NoDup keys.
Proof.
  induction 1 as [|k keys Hs IH Hk]; constructor; [|exact IH].
  intros Hin. rewrite Forall_forall in Hk. specialize (Hk k Hin).
  rewrite string_ltb_irrefl in Hk. discriminate Hk.
Qed.

Lemma ascending_Sorted (keys : list string) :
  ascending keys -> Sorted (non_desc String.ltb) keys.
Proof.
  intros H. apply StronglySorted_Sorted.
  induction H as [|k keys Hs IH Hk]; constructor; [exact IH|].
  eapply Forall_impl; [|exact Hk]. intros k'. apply string_ltb_asym.
Qed.

(** Keys that come in non-descending order, none below a key already
    there, leave the keys of the dict ascending. *)
Lemma assign_all_ascending (entries : list (string * value)) (acc : pydict) :
  StronglySorted (non_desc String.ltb) (map fst entries) ->
  ascending (map fst acc) ->
  (forall k' k, In k' (map fst acc) -> In k (map fst entries) ->
                String.ltb k k' = false) ->
  ascending (map fst (assign_all acc entries)).
Proof.
  revert acc. induction entries as [|[k y] entries IH]; intros acc Hs Hacc Hle;
    [exact Hacc|].
  cbn [assign_all fold_left fst snd map] in *.
  inversion Hs as [|? ? Hs' Hk]; subst.
  assert (forall k', In k' (map fst (dict_set acc k y)) ->
                     k' = k \/ In k' (map fst acc)) as Hkeys.
  { intros k' Hin. apply in_map_iff in Hin. destruct Hin as [[k0 y0] [<- Hin]].
    apply dict_set_In in Hin. destruct Hin as [E|Hin].
    - left. injection E as -> _. reflexivity.
    - right. apply (in_map fst) in Hin. exact Hin. }
  apply IH.
  - exact Hs'.
  - destruct (in_dec string_dec k (map fst acc)) as [Hin|Hnin].
    + rewrite dict_set_keys_old by exact Hin. exact Hacc.
    + rewrite dict_set_fresh, map_app by exact Hnin. cbn [map fst].
      apply ascending_snoc; [exact Hacc|].
      apply Forall_forall. intros k' Hk'.
      destruct (String.ltb k' k) eqn:E; [reflexivity|]. exfalso.
      apply Hnin. rewrite (string_ltb_antisym k k'); [exact Hk'| |exact E].
      apply Hle; [exact Hk'|left; reflexivity].
  - intros k' k0 Hk' Hk0. destruct (Hkeys k' Hk') as [->|Hin].
    + rewrite Forall_forall in Hk. apply (Hk k0 Hk0).
    + apply Hle; [exact Hin|right; exact Hk0].
Qed.

Lemma assign_all_In (P : string * value -> Prop)
    (entries : list (string * value)) (acc : pydict) :
  Forall P acc -> Forall P entries -> Forall P (assign_all acc entries).
Proof.
  revert acc. induction entries as [|[k y] entries IH]; intros acc Hacc He;
    [exact Hacc|].
  cbn [assign_all fold_left fst snd]. inversion He as [|? ? Hky He']; subst.
  apply IH; [|exact He'].
  apply Forall_forall. intros [k' y'] Hin. apply dict_set_In in Hin.
  destruct Hin as [->|Hin]; [exact Hky|].
  rewrite Forall_forall in Hacc. apply Hacc. exact Hin.
Qed.

Lemma combine_fst_snd {A B : Type} (l : list (A * B)) :
  combine (map fst l) (map snd l) = l.
Proof.
  induction l as [|[a b] l IH]; simpl; [reflexivity|]. rewrite IH. reflexivity.
Qed.

Lemma sorted_keys_strongly_sorted (keys : list string) :
  StronglySorted (non_desc String.ltb) (sorted_total String.ltb keys).
Proof.
  apply sorted_total_strongly_sorted.
  - apply string_ltb_asym.
  - intros a b c. apply string_le_trans.
Qed.

(** A normal form is its own normal form. *)
Lemma sorter_api_result_fixed (v : value) :
  forall w, sorter_api_result v = Ok w -> sorter_api_result w = Ok w.
Proof.
  induction v as [|b|n|s|l IH|d IH] using value_ind_nested; intros w H;
    try (cbn [sorter_api_result] in H; injection H as <-; reflexivity).
  - (* a list *)
    cbn [sorter_api_result] in H.
    destruct (forallb is_dict l && negb (Nat.eqb (List.length l) 0))%bool eqn:C.
    + (* of dicts: sorted as they are *)
      injection H as <-.
      set (key := dicts_sort_key (sorted_set (flat_map dict_keys l))).
      assert (Permutation l (sorted_by_key tuple_ltb key l)) as HP
        by apply sorted_total_perm.
      cbn [sorter_api_result].
      rewrite <- (forallb_perm is_dict _ _ HP),
        <- (Permutation_length HP), C.
      rewrite (sorted_set_ext (flat_map dict_keys (sorted_by_key tuple_ltb key l))
                              (flat_map dict_keys l))
        by (intros k; symmetry; apply flat_map_In_perm; exact HP).
      fold key. unfold sorted_by_key.
      rewrite (sorted_total_idempotent (fun a b => tuple_ltb (key a) (key b)))
        by (intros a b; apply tuple_ltb_asym).
      reflexivity.
    + (* of anything else: items normalised, then sorted *)
      destruct (mapM sorter_api_result l) as [items|e] eqn:M; cbn [bind] in H;
        try discriminate.
      destruct (py_sorted py_lt items) as [r|e] eqn:S; cbn [bind] in H;
        try discriminate.
      injection H as <-.
      apply mapM_Forall2 in M.
      assert (Permutation items r) as HP by (eapply py_sorted_perm; exact S).
      cbn [sorter_api_result].
      rewrite <- (forallb_perm is_dict _ _ HP), <- (Permutation_length HP).
      rewrite (forallb_Forall2 is_dict _ l items
                 (fun x y => sorter_api_result_is_dict x y) M).
      rewrite <- (Forall2_length_eq _ _ _ M), C.
      rewrite mapM_fixed.
      * cbn [bind]. rewrite (py_sorted_idempotent py_lt py_lt_asym items r S).
        reflexivity.
      * intros y Hy.
        assert (In y items) as Hy'
          by (eapply Permutation_in; [apply Permutation_sym; exact HP|exact Hy]).
        destruct (Forall2_In_r _ _ _ _ M Hy') as [x [Hx Hxy]].
        rewrite Forall_forall in IH. apply (IH x Hx). exact Hxy.
  - (* a dict *)
    cbn [sorter_api_result] in H.
    set (keys := sorted_total String.ltb (map fst d)) in *.
    rewrite sorted_dict_loop_assign in H.
    destruct (mapM _ keys) as [ys|e] eqn:M; cbn [bind] in H; try discriminate.
    injection H as <-.
    apply mapM_Forall2 in M.
    pose proof (Forall2_length_eq _ _ _ M) as Hlen.
    set (r := assign_all [] (combine keys ys)).
    assert (ascending (map fst r)) as Hasc.
    { apply assign_all_ascending.
      - rewrite map_fst_combine by exact Hlen. apply sorted_keys_strongly_sorted.
      - constructor.
      - intros k' k []. }
    assert (Forall (fun kv => sorted_item sorter_api_result (fst kv) d
                              = Ok (snd kv)) r) as Hr.
    { apply assign_all_In; [constructor|].
      apply Forall_forall. intros [k y] Hin.
      apply (Forall2_combine _ _ _ _ _ M Hin). }
    cbn [sorter_api_result].
    rewrite (sorted_total_fixed String.ltb (map fst r))
      by (apply ascending_Sorted; exact Hasc).
    rewrite sorted_dict_loop_distinct
      by (try (apply ascending_NoDup; exact Hasc); intros k _ []).
    rewrite (mapM_combine _ (map fst r) (map snd r)).
    + cbn [bind app]. rewrite combine_fst_snd. reflexivity.
    + rewrite !length_map. reflexivity.
    + rewrite combine_fst_snd. intros k y Hin.
      rewrite Forall_forall in Hr. pose proof (Hr (k, y) Hin) as Hitem.
      cbn [fst snd] in Hitem.
      apply sorted_item_inv in Hitem. destruct Hitem as [x [Hx Hy]].
      rewrite sorted_item_assoc.
      rewrite (In_assoc k y r) by (try apply ascending_NoDup; assumption).
      destruct (String.eqb k "authors"); [reflexivity|].
      rewrite Forall_forall in IH. apply (IH (k, x) Hx). exact Hy.
Qed.

(** C7.  Normalising a normal form changes nothing: for every value, the
    normaliser applied to its own result returns that result, and where it
    raises on the value so does the composition. *)
Theorem sorter_api_result_idempotent (v : value) :
  bind (sorter_api_result v) sorter_api_result = sorter_api_result v.
Proof.
  destruct (sorter_api_result v) as [w|e] eqn:E; [|reflexivity].
  cbn [bind]. apply (sorter_api_result_fixed v w E).
Qed.

Example example_normal_form_twice :
  let v := VDict [("b", VList [VInt 3; VBool true; VInt 1]);
                  ("authors", VList [VStr "z"; VStr "a"]);
                  ("a", VList [VDict [("x", VInt 2)]; VDict [("x", VInt 10)]])] in
  sorter_api_result v
  = Ok (VDict [("a", VList [VDict [("x", VInt 10)]; VDict [("x", VInt 2)]]);
               ("authors", VList [VStr "z"; VStr "a"]);
               ("b", VList [VBool true; VInt 1; VInt 3])])
  /\ bind (sorter_api_result v) sorter_api_result = sorter_api_result v.
Proof. split; vm_compute; reflexivity. Qed.

(** * Further properties *)

(** ** The registry look-up: retries, pages, bounds *)

Section LookupRuns.
Variables (retries : Z) (server : registry).
Variables (article_id : value) (version_tag : string).

Local Abbreviation run' := (run retries server article_id version_tag).
Local Abbreviation step' := (step retries server article_id version_tag).

Lemma run_S (fuel : nat) (c : control) :
  run' (S fuel) c = run' fuel (step' c).
Proof. reflexivity. Qed.

(** Once over, the look-up stays where it is. *)
Lemma run_final (fuel : nat) (c : control) :
  step' c = c -> run' fuel c = c.
Proof.
  intros H. induction fuel as [|fuel IH]; [reflexivity|].
  rewrite run_S, H. exact IH.
Qed.

Lemma run_at_least (m fuel : nat) (c : control) :
  (m <= fuel)%nat -> step' (run' m c) = run' m c -> run' fuel c = run' m c.
Proof.
  intros Hle Hfin. replace fuel with (m + (fuel - m))%nat by lia.
  rewrite run_add. apply run_final. exact Hfin.
Qed.

(** A registry that cannot be reached: from the test of the outer loop with
    [k + 1] tries left, the look-up makes [k + 1] requests, sleeps [k] times
    and raises. *)
Lemma run_unreachable (k : nat) (s : lookup_state) :
  (forall i page, server i page = Transport_error) ->
  success s = false ->
  (tries s + Z.of_nat k = retries)%Z ->
  run' (2 * S k) (At_outer s)
  = Raised RequestException
      {| tries := retries + 1; success := false;
         requests := requests s + S k; sleeps := sleeps s + k |}.
Proof.
  intros Hserver. revert s. induction k as [|k IH]; intros s Hs Ht.
  - cbn [Nat.mul Nat.add run]. unfold step at 2. rewrite Hs.
    replace (tries s <=? retries)%Z with true by (symmetry; apply Z.leb_le; lia).
    cbn [negb andb]. unfold step.
    cbn [count_request requests pred tries success sleeps]. rewrite Hserver.
    replace (retries <? tries s + 1)%Z with true
      by (symmetry; apply Z.ltb_lt; lia).
    f_equal. f_equal; try lia. exact Hs.
  - replace (2 * S (S k))%nat with (2 + 2 * S k)%nat by lia.
    rewrite run_add. cbn [Nat.add run]. unfold step at 2. rewrite Hs.
    replace (tries s <=? retries)%Z with true by (symmetry; apply Z.leb_le; lia).
    cbn [negb andb]. unfold step at 1.
    cbn [count_request requests pred tries success sleeps]. rewrite Hserver.
    replace (retries <? tries s + 1)%Z with false
      by (symmetry; apply Z.ltb_ge; lia).
    rewrite IH; cbn [tries success requests sleeps]; [|exact Hs|lia].
    f_equal. f_equal; lia.
Qed.

(** Pages without a match: a step of the inner loop goes to the next
    page. *)
Lemma run_pages (pages : nat -> list package) (k : nat) (page0 : nat)
    (s : lookup_state) :
  (forall i, (i < k)%nat ->
     server (requests s + i)%nat (Z.of_nat (page0 + i))
     = Response 200 (Some (pages i))
     /\ find (matches article_id version_tag) (pages i) = None) ->
  run' k (At_inner (Z.of_nat page0) s)
  = At_inner (Z.of_nat (page0 + k))
      (match k with
       | O => s
       | S _ => {| tries := tries s; success := true;
                   requests := requests s + k; sleeps := sleeps s |}
       end).
Proof.
  revert page0 s pages. induction k as [|k IH]; intros page0 s pages H.
  - cbn [run]. rewrite Nat.add_0_r. reflexivity.
  - rewrite run_S. unfold step.
    cbn [count_request requests pred tries success sleeps].
    destruct (H 0%nat) as [Hs Hf]; [lia|]. rewrite !Nat.add_0_r in Hs.
    rewrite Hs. cbn [Z.eqb Pos.eqb]. rewrite Hf.
    replace (Z.of_nat page0 + 1)%Z with (Z.of_nat (S page0)) by lia.
    rewrite (IH (S page0) _ (fun i => pages (S i))).
    + replace (S page0 + k)%nat with (page0 + S k)%nat by lia.
      f_equal. destruct k; cbn [tries success requests sleeps];
        f_equal; lia.
    + intros i Hi. cbn [requests].
      replace (S (requests s) + i)%nat with (requests s + S i)%nat by lia.
      replace (S page0 + i)%nat with (page0 + S i)%nat by lia.
      apply H. lia.
Qed.
End LookupRuns.

(** X1.  Retry exhaustion: when every request fails in transport and
    [retries] is at least 1, the look-up raises the failure after exactly
    [retries] requests and [retries - 1] sleeps, and stays there. *)
Theorem transport_failures_exhaust_retries (retries : Z) (server : registry)
    (article_id version_no : value) (version_tag : string) (fuel : nat) :
  get_preserved_version_tag version_no = Ok (VStr version_tag) ->
  (1 <= retries)%Z ->
  (forall i page, server i page = Transport_error) ->
  (2 * Z.to_nat retries <= fuel)%nat ->
  get_preserved_version_hash_and_size retries server article_id version_no fuel
  = Ok (Raised RequestException
          {| tries := retries + 1; success := false;
             requests := Z.to_nat retries;
             sleeps := Z.to_nat retries - 1 |}).
Proof.
  intros Htag Hr Hserver Hfuel.
  unfold get_preserved_version_hash_and_size. rewrite Htag. cbn [bind].
  f_equal.
  assert (run retries server article_id version_tag (2 * Z.to_nat retries) initial
          = Raised RequestException
              {| tries := retries + 1; success := false;
                 requests := Z.to_nat retries;
                 sleeps := Z.to_nat retries - 1 |}) as E.
  { replace (Z.to_nat retries) with (S (Z.to_nat retries - 1)) at 1 by lia.
    unfold initial. rewrite run_unreachable; cbn [tries success requests sleeps];
      [|exact Hserver|reflexivity|lia].
    f_equal. f_equal; lia. }
  rewrite <- E. apply run_at_least; [exact Hfuel|]. rewrite E. reflexivity.
Qed.

Lemma transport_failures_exhaust_retries_witness :
  get_preserved_version_hash_and_size 3 Sample.unreachable (VInt 42) (VInt 3) 6
  = Ok (Raised RequestException
          {| tries := 3 + 1; success := false;
             requests := Z.to_nat 3; sleeps := Z.to_nat 3 - 1 |}).
Proof.
  apply (transport_failures_exhaust_retries 3 Sample.unreachable (VInt 42)
           (VInt 3) "v03" 6).
  - vm_compute. reflexivity.
  - lia.
  - reflexivity.
  - vm_compute. lia.
Defined.

(** X2.  Paging: when the first [k] pages answer 200 with packages none of
    which matches, and page [k + 1] holds a package whose name has the
    article id and the tag in it, the look-up returns the text after the last
    underscore of the first such name and the payload size of that package,
    after [k + 1] requests, with no sleep and no retry. *)
Theorem lookup_finds_first_match (retries : Z) (server : registry)
    (article_id version_no : value) (version_tag : string)
    (pages : nat -> list package) (k : nat) (p : package) (fuel : nat) :
  get_preserved_version_tag version_no = Ok (VStr version_tag) ->
  (1 <= retries)%Z ->
  (forall i, (i <= k)%nat ->
     server i (Z.of_nat (S i)) = Response 200 (Some (pages i))) ->
  (forall i, (i < k)%nat ->
     find (matches article_id version_tag) (pages i) = None) ->
  find (matches article_id version_tag) (pages k) = Some p ->
  (k + 2 <= fuel)%nat ->
  get_preserved_version_hash_and_size retries server article_id version_no fuel
  = Ok (Returned (last (PyStr.split "_"%char (bag_name p)) "") (payload_size p)
          {| tries := 1; success := true; requests := S k; sleeps := 0 |}).
Proof.
  intros Htag Hr Hserver Hmiss Hhit Hfuel.
  unfold get_preserved_version_hash_and_size. rewrite Htag. cbn [bind].
  f_equal.
  set (final := Returned (last (PyStr.split "_"%char (bag_name p)) "")
                  (payload_size p)
                  {| tries := 1; success := true; requests := S k; sleeps := 0 |}).
  assert (run retries server article_id version_tag (k + 2) initial = final) as E.
  { replace (k + 2)%nat with (1 + (k + 1))%nat by lia.
    rewrite run_add. unfold initial. cbn [Nat.add run]. unfold step at 1.
    cbn [tries success negb andb].
    replace (1 <=? retries)%Z with true by (symmetry; apply Z.leb_le; lia).
    cbn [andb]. rewrite run_add. change (At_inner 1) with (At_inner (Z.of_nat 1)).
    rewrite (run_pages retries server article_id version_tag pages k 1).
    - cbn [run]. unfold step.
      assert (server k (Z.of_nat (1 + k)) = Response 200 (Some (pages k))) as Hk
        by (apply Hserver; lia).
      destruct k as [|k']; cbn [count_request requests pred tries success sleeps
                                 Nat.add] in *;
        rewrite Hk; cbn [Z.eqb Pos.eqb]; rewrite Hhit;
        rewrite (index_from_end_last_default _ "") by apply split_not_nil;
        reflexivity.
    - intros i Hi. cbn [requests Nat.add]. split.
      + apply Hserver. lia.
      + apply Hmiss. exact Hi. }
  rewrite <- E. apply run_at_least; [exact Hfuel|]. rewrite E. reflexivity.
Qed.

Lemma lookup_finds_first_match_witness :
  get_preserved_version_hash_and_size 2 Cases.two_pages (VInt 42) (VInt 3) 3
  = Ok (Returned (last (PyStr.split "_"%char (bag_name Cases.bag)) "")
          (payload_size Cases.bag)
          {| tries := 1; success := true; requests := 2; sleeps := 0 |}).
Proof.
  apply (lookup_finds_first_match 2 Cases.two_pages (VInt 42) (VInt 3) "v03"
           Cases.two_pages_content 1 Cases.bag 3).
  - vm_compute. reflexivity.
  - lia.
  - intros [|[|i]] Hi; [reflexivity|reflexivity|lia].
  - intros [|i] Hi; [reflexivity|lia].
  - reflexivity.
  - lia.
Defined.

(** X3.  With [retries] below 1 the look-up asks nothing: it returns the
    default result without a single request, whatever the registry holds. *)
Theorem no_retries_no_request (retries : Z) (server : registry)
    (article_id version_no : value) (version_tag : string) (fuel : nat) :
  get_preserved_version_tag version_no = Ok (VStr version_tag) ->
  (retries < 1)%Z ->
  (1 <= fuel)%nat ->
  get_preserved_version_hash_and_size retries server article_id version_no fuel
  = Ok (Returned "" 0
          {| tries := 1; success := false; requests := 0; sleeps := 0 |}).
Proof.
  intros Htag Hr Hfuel.
  unfold get_preserved_version_hash_and_size. rewrite Htag. cbn [bind].
  f_equal. destruct fuel as [|fuel]; [lia|].
  unfold initial. cbn [run]. unfold step at 1. cbn [tries success].
  replace (1 <=? retries)%Z with false by (symmetry; apply Z.leb_gt; lia).
  cbn [andb]. apply run_returned.
Qed.

Lemma no_retries_no_request_witness :
  get_preserved_version_hash_and_size 0 Cases.two_pages (VInt 42) (VInt 3) 5
  = Ok (Returned "" 0
          {| tries := 1; success := false; requests := 0; sleeps := 0 |}).
Proof.
  apply (no_retries_no_request 0 Cases.two_pages (VInt 42) (VInt 3) "v03" 5).
  - vm_compute. reflexivity.
  - lia.
  - lia.
Defined.

(** X4.  A transport failure after a page was answered ends the search:
    with [retries] at least 2, a first page without a match followed by a
    failed request makes the look-up sleep once and return the default
    result; the failure is not raised and no page is asked again. *)
Theorem failure_after_success_returns_default (retries : Z) (server : registry)
    (article_id version_no : value) (version_tag : string)
    (first_page : list package) (fuel : nat) :
  get_preserved_version_tag version_no = Ok (VStr version_tag) ->
  (2 <= retries)%Z ->
  server 0%nat 1%Z = Response 200 (Some first_page) ->
  find (matches article_id version_tag) first_page = None ->
  server 1%nat 2%Z = Transport_error ->
  (4 <= fuel)%nat ->
  get_preserved_version_hash_and_size retries server article_id version_no fuel
  = Ok (Returned "" 0
          {| tries := 2; success := true; requests := 2; sleeps := 1 |}).
Proof.
  intros Htag Hr H0 Hmiss H1 Hfuel.
  unfold get_preserved_version_hash_and_size. rewrite Htag. cbn [bind].
  f_equal. replace fuel with (4 + (fuel - 4))%nat by lia. rewrite run_add.
  unfold initial. cbn [Nat.add run]. unfold step at 4. cbn [tries success].
  replace (1 <=? retries)%Z with true by (symmetry; apply Z.leb_le; lia).
  cbn [negb andb]. unfold step at 3.
  cbn [count_request requests pred tries success sleeps].
  rewrite H0. cbn [Z.eqb Pos.eqb]. rewrite Hmiss.
  unfold step at 2. cbn [count_request requests pred tries success sleeps Z.add
                         Pos.add Pos.succ].
  rewrite H1.
  replace (retries <? 2)%Z with false by (symmetry; apply Z.ltb_ge; lia).
  unfold step at 1. cbn [tries success negb]. rewrite Bool.andb_false_r.
  apply run_returned.
Qed.

Lemma failure_after_success_returns_default_witness :
  get_preserved_version_hash_and_size 2 Cases.fails_after_first_page
    (VInt 42) (VInt 3) 4
  = Ok (Returned "" 0
          {| tries := 2; success := true; requests := 2; sleeps := 1 |}).
Proof.
  apply (failure_after_success_returns_default 2 Cases.fails_after_first_page
           (VInt 42) (VInt 3) "v03" [Cases.other_bag] 4).
  - vm_compute. reflexivity.
  - lia.
  - reflexivity.
  - reflexivity.
  - reflexivity.
  - lia.
Defined.

(** X5.  Only a null ['results'] ends the paging.  When every page is
    answered 200 with a list that has no match (the empty list, say), the
    look-up is, after any number [n + 1] of requests, at the test of the
    inner loop for page [n + 2]: it neither returns nor raises. *)
Theorem unmatched_pages_never_end (retries : Z) (server : registry)
    (article_id version_no : value) (version_tag : string)
    (pages : nat -> list package) (n : nat) :
  get_preserved_version_tag version_no = Ok (VStr version_tag) ->
  (1 <= retries)%Z ->
  (forall i, server i (Z.of_nat (S i)) = Response 200 (Some (pages i))) ->
  (forall i, find (matches article_id version_tag) (pages i) = None) ->
  get_preserved_version_hash_and_size retries server article_id version_no
    (S (S n))
  = Ok (At_inner (Z.of_nat (S (S n)))
          {| tries := 1; success := true; requests := S n; sleeps := 0 |}).
Proof.
  intros Htag Hr Hserver Hmiss.
  unfold get_preserved_version_hash_and_size. rewrite Htag. cbn [bind].
  f_equal. unfold initial. rewrite run_S. unfold step at 1. cbn [tries success].
  replace (1 <=? retries)%Z with true by (symmetry; apply Z.leb_le; lia).
  cbn [negb andb]. change (At_inner 1) with (At_inner (Z.of_nat 1)).
  rewrite (run_pages retries server article_id version_tag pages (S n) 1).
  - reflexivity.
  - intros i _. cbn [requests Nat.add]. split; [apply Hserver|apply Hmiss].
Qed.

Lemma unmatched_pages_never_end_witness :
  get_preserved_version_hash_and_size 2 Cases.always_empty_list
    (VInt 42) (VInt 3) (S (S 5))
  = Ok (At_inner (Z.of_nat (S (S 5)))
          {| tries := 1; success := true; requests := S 5; sleeps := 0 |}).
Proof.
  apply (unmatched_pages_never_end 2 Cases.always_empty_list (VInt 42) (VInt 3)
           "v03" (fun _ => []) 5).
  - vm_compute. reflexivity.
  - lia.
  - intros i. reflexivity.
  - intros i. reflexivity.
Defined.

(** ** Version tags of numbers *)

Lemma str_of_int_negative_length (n : Z) :
  (n < 0)%Z -> (2 <= String.length (PyStr.str_of_int n))%nat.
Proof.
  intros Hn. unfold PyStr.str_of_int, NilZero.string_of_int.
  destruct n as [|p|p]; try lia. cbn [Z.to_int String.length].
  unfold NilZero.string_of_uint.
  destruct (Pos.to_uint p); cbn [NilEmpty.string_of_uint String.length]; lia.
Qed.

Lemma zfill_long (s : string) (width : nat) :
  (width <= String.length s)%nat -> PyStr.zfill s width = s.
Proof.
  intros H. unfold PyStr.zfill.
  destruct (Nat.leb_spec width (String.length s)); [reflexivity|lia].
Qed.

Lemma zfill_one_digit (n : Z) :
  (0 <= n < 10)%Z ->
  PyStr.zfill (PyStr.str_of_int n) 2 = String "0"%char (PyStr.str_of_int n).
Proof.
  intros H. remember (Z.to_nat n) as k eqn:Ek.
  assert (n = Z.of_nat k) as -> by lia.
  assert (k < 10)%nat as Hk by lia. clear H Ek.
  do 10 (destruct k as [|k]; [reflexivity|]). lia.
Qed.

(** X6.  For every number, the three places that format a version tag
    give the same text: [v] and the decimal text of the number, a single
    digit from 0 to 9 getting one [0] in front; negative numbers and numbers
    from 10 on are not padded. *)
Theorem version_tag_of_int (n : Z) :
  get_preserved_version_tag (VInt n) = Ok (VStr (tag_of_int n))
  /\ check_wasabi_version_tag (VInt n) = Ok (VStr (tag_of_int n))
  /\ calculate_payload_version_tag (VInt n) = Ok (tag_of_int n).
Proof.
  unfold get_preserved_version_tag, check_wasabi_version_tag,
    calculate_payload_version_tag, tag_of_int.
  cbn [PyRepr.str PyRepr.repr PyInt.int bind].
  rewrite contains_v_str_of_int.
  destruct (Z.ltb_spec n 10) as [Hlt|Hge].
  - replace (9 <? n)%Z with false by (symmetry; apply Z.ltb_ge; lia).
    destruct (Z.leb_spec 0 n) as [Hpos|Hneg]; cbn [andb].
    + rewrite zfill_one_digit by lia. repeat split; reflexivity.
    + rewrite zfill_long by (apply str_of_int_negative_length; exact Hneg).
      repeat split; reflexivity.
  - replace (9 <? n)%Z with true by (symmetry; apply Z.ltb_lt; lia).
    rewrite Bool.andb_false_r. repeat split; reflexivity.
Qed.

(** X7.  The estimator formats as the look-ups do whenever the text of the
    version number has no [v] in it: the same tag, or the same exception
    when the version number is not a number. *)
Theorem estimator_tag_agrees (version_no : value) :
  PyStr.contains "v" (PyRepr.str version_no) = false ->
  get_preserved_version_tag version_no
  = result_map VStr (calculate_payload_version_tag version_no).
Proof.
  intros H. unfold get_preserved_version_tag, calculate_payload_version_tag.
  rewrite H. destruct (PyInt.int version_no) as [n|e]; cbn [bind];
    [|reflexivity].
  destruct (Z.ltb_spec n 10); destruct (Z.ltb_spec 9 n); try lia; reflexivity.
Qed.

Lemma estimator_tag_agrees_witness :
  get_preserved_version_tag (VStr "3")
  = result_map VStr (calculate_payload_version_tag (VStr "3")).
Proof.
  apply (estimator_tag_agrees (VStr "3")). reflexivity.
Defined.

(** ** What the listing parsers return *)

Lemma rsplit1_no_sep (c : ascii) (s : string) :
  all_chars (fun a => negb (Ascii.eqb a c)) s = true -> PyStr.rsplit1 c s = [s].
Proof.
  induction s as [|a s IH]; simpl; [reflexivity|].
  intros H. apply Bool.andb_true_iff in H. destruct H as [Ha Hs].
  rewrite (IH Hs). apply Bool.negb_true_iff in Ha. rewrite Ha. reflexivity.
Qed.

(** The cut is at the last separator: what follows it has none. *)
Lemma rsplit1_at_last (c : ascii) (pre name : string) :
  all_chars (fun a => negb (Ascii.eqb a c)) name = true ->
  PyStr.rsplit1 c (pre ++ String c name) = [pre; name].
Proof.
  intros H. induction pre as [|a pre IH]; simpl.
  - rewrite (rsplit1_no_sep c name H), Ascii.eqb_refl. reflexivity.
  - rewrite IH. reflexivity.
Qed.

Lemma rsplit1_last_clean (c : ascii) (s : string) :
  all_chars (fun a => negb (Ascii.eqb a c)) (last (PyStr.rsplit1 c s) "") = true.
Proof.
  assert ((exists t, PyStr.rsplit1 c s = [t]
                     /\ all_chars (fun a => negb (Ascii.eqb a c)) t = true)
          \/ (exists hd tl, PyStr.rsplit1 c s = [hd; tl]
                            /\ all_chars (fun a => negb (Ascii.eqb a c)) tl = true))
    as [[t [-> H]]|[hd [tl [-> H]]]]; try exact H.
  induction s as [|a s IH]; simpl.
  - left. exists EmptyString. split; reflexivity.
  - destruct IH as [[t [-> H]]|[hd [tl [-> H]]]].
    + destruct (Ascii.eqb a c) eqn:E.
      * right. exists EmptyString, t. split; [reflexivity|exact H].
      * left. exists (String a t). split; [reflexivity|].
        simpl. rewrite E, H. reflexivity.
    + right. exists (String a hd), tl. split; [reflexivity|exact H].
Qed.

Lemma bagger_names (ls : string) :
  Bagger.get_filenames_from_ls ls = Ok (map filename_of_line (kept_lines ls)).
Proof.
  unfold Bagger.get_filenames_from_ls, kept_lines.
  rewrite <- comprehension_total_filter.
  apply comprehension_ext; intros line;
    rewrite filename_of_line_index; reflexivity.
Qed.

Lemma kept_lines_names (ls : string) :
  Forall (fun line => filename_of_line line <> ""%string
                      /\ no_slash (filename_of_line line) = true)
         (kept_lines ls).
Proof.
  apply Forall_forall. intros line Hin. unfold kept_lines in Hin.
  apply filter_In in Hin. destruct Hin as [_ Hne]. split.
  - apply Bool.negb_true_iff, String.eqb_neq in Hne. exact Hne.
  - apply rsplit1_last_clean.
Qed.

(** X8.  The filename parser never raises, and no name it returns is empty
    or has a slash in it. *)
Theorem get_filenames_from_ls_names (ls : string) :
  exists names,
    Bagger.get_filenames_from_ls ls = Ok names
    /\ Forall (fun name => name <> ""%string /\ no_slash name = true) names.
Proof.
  eexists. split; [apply bagger_names|].
  apply Forall_map. exact (kept_lines_names ls).
Qed.

Lemma split_ws_tokens (s : string) :
  Forall (fun tok => tok <> ""%string /\ no_space tok = true) (PyStr.split_ws s).
Proof.
  induction s as [|a s IH]; simpl; [constructor|].
  destruct (PyStr.is_space a) eqn:Ea; [exact IH|].
  destruct (PyStr.starts_with_space s) eqn:Es.
  - constructor; [|exact IH]. split; [discriminate|].
    unfold no_space. simpl. rewrite Ea. reflexivity.
  - destruct (PyStr.split_ws s) as [|tok rest].
    + constructor; [|constructor]. split; [discriminate|].
      unfold no_space. simpl. rewrite Ea. reflexivity.
    + inversion IH as [|? ? [_ Htok] Hrest]; subst.
      constructor; [|exact Hrest]. split; [discriminate|].
      unfold no_space in *. simpl. rewrite Ea, Htok. reflexivity.
Qed.

(** X9.  Whenever the parser with sizes returns, every pair has a name
    that is not empty and has no slash, and a size that is a token: not
    empty and free of whitespace.  Nothing says that the size is a number. *)
Theorem get_filenames_and_sizes_from_ls_pairs (ls : string)
    (pairs : list (string * string)) :
  get_filenames_and_sizes_from_ls ls = Ok pairs ->
  Forall (fun pair => (fst pair <> ""%string /\ no_slash (fst pair) = true)
                      /\ (snd pair <> ""%string /\ no_space (snd pair) = true))
         pairs.
Proof.
  unfold get_filenames_and_sizes_from_ls. rewrite comprehension_sizes.
  cbv zeta. fold (kept_lines ls).
  destruct (forallb has_two_tokens (kept_lines ls)) eqn:E; [|discriminate].
  intros H. injection H as <-. apply Forall_map.
  pose proof (kept_lines_names ls) as Hn.
  rewrite forallb_forall in E. rewrite Forall_forall in *.
  intros line Hin. cbn [fst snd]. split; [apply (Hn line Hin)|].
  specialize (E line Hin). unfold has_two_tokens in E. apply Nat.leb_le in E.
  pose proof (split_ws_tokens line) as Ht. rewrite Forall_forall in Ht.
  apply Ht. unfold size_of_line. apply nth_In. lia.
Qed.

Lemma get_filenames_and_sizes_from_ls_pairs_witness :
  Forall (fun pair => (fst pair <> ""%string /\ no_slash (fst pair) = true)
                      /\ (snd pair <> ""%string /\ no_space (snd pair) = true))
         [("file_abc123.tar", "100")%string].
Proof.
  apply (get_filenames_and_sizes_from_ls_pairs
           "2024-01-01 100 s3://bucket/path/file_abc123.tar").
  vm_compute. reflexivity.
Defined.

(** ** A listing line, written and read back *)

Lemma append_assoc (a b c : string) :
  ((a ++ b) ++ c)%string = (a ++ (b ++ c))%string.
Proof. induction a as [|x a IH]; simpl; [reflexivity|]. rewrite IH. reflexivity. Qed.

Lemma all_chars_app (p : ascii -> bool) (a b : string) :
  all_chars p (a ++ b) = (all_chars p a && all_chars p b)%bool.
Proof.
  induction a as [|x a IH]; simpl; [reflexivity|].
  rewrite IH, Bool.andb_assoc. reflexivity.
Qed.

Lemma all_chars_impl (p q : ascii -> bool) (s : string) :
  (forall a, p a = true -> q a = true) ->
  all_chars p s = true -> all_chars q s = true.
Proof.
  intros Hpq. induction s as [|a s IH]; simpl; [reflexivity|].
  intros H. apply Bool.andb_true_iff in H. destruct H as [Ha Hs].
  rewrite (Hpq a Ha), (IH Hs). reflexivity.
Qed.

(** Every line boundary is whitespace. *)
Lemma linebreak_is_space (a : ascii) :
  PyStr.is_linebreak a = true -> PyStr.is_space a = true.
Proof.
  unfold PyStr.is_linebreak, PyStr.is_space. cbv zeta.
  set (n := PyStr.code a). intros H.
  repeat (apply Bool.orb_true_iff in H; destruct H as [H|H]);
    apply N.eqb_eq in H; rewrite H; reflexivity.
Qed.

Lemma no_space_no_linebreak (s : string) :
  no_space s = true -> no_linebreak s = true.
Proof.
  apply all_chars_impl. intros a Ha.
  apply Bool.negb_true_iff in Ha. apply Bool.negb_true_iff.
  destruct (PyStr.is_linebreak a) eqn:E; [|reflexivity].
  apply linebreak_is_space in E. congruence.
Qed.

Lemma splitlines_single (s : string) :
  no_linebreak s = true -> s <> ""%string -> PyStr.splitlines s = [s].
Proof.
  induction s as [|a s IH]; [contradiction|]. intros H _.
  unfold no_linebreak in H. simpl in H.
  apply Bool.andb_true_iff in H. destruct H as [Ha Hs].
  apply Bool.negb_true_iff in Ha. cbn [PyStr.splitlines]. rewrite Ha.
  destruct s as [|b s]; [reflexivity|].
  rewrite IH; [reflexivity|exact Hs|discriminate].
Qed.

Lemma split_ws_token (tok : string) :
  tok <> ""%string -> no_space tok = true -> PyStr.split_ws tok = [tok].
Proof.
  induction tok as [|a tok IH]; [contradiction|]. intros _ H.
  unfold no_space in H. simpl in H.
  apply Bool.andb_true_iff in H. destruct H as [Ha Hs].
  apply Bool.negb_true_iff in Ha. cbn [PyStr.split_ws]. rewrite Ha.
  destruct tok as [|b tok]; [reflexivity|].
  assert (PyStr.is_space b = false) as Hb.
  { simpl in Hs. apply Bool.andb_true_iff in Hs. destruct Hs as [Hb _].
    apply Bool.negb_true_iff in Hb. exact Hb. }
  cbn [PyStr.starts_with_space]. rewrite Hb.
  rewrite IH; [reflexivity|discriminate|exact Hs].
Qed.

Lemma split_ws_starts (s : string) :
  PyStr.starts_with_space s = false -> PyStr.split_ws s <> [].
Proof.
  destruct s as [|a s]; simpl; [discriminate|]. intros ->.
  destruct (PyStr.starts_with_space s); [discriminate|].
  destruct (PyStr.split_ws s); discriminate.
Qed.

Lemma starts_with_space_app (a : string) (sp : ascii) (b : string) :
  PyStr.is_space sp = true ->
  PyStr.starts_with_space (a ++ String sp b) = PyStr.starts_with_space a.
Proof. intros H. destruct a; simpl; [exact H|reflexivity]. Qed.

(** Splitting on whitespace goes through a blank. *)
Lemma split_ws_app (a : string) (sp : ascii) (b : string) :
  PyStr.is_space sp = true ->
  PyStr.split_ws (a ++ String sp b) = PyStr.split_ws a ++ PyStr.split_ws b.
Proof.
  intros Hsp. induction a as [|x a IH]; simpl.
  - rewrite Hsp. reflexivity.
  - destruct (PyStr.is_space x); [exact IH|].
    rewrite (starts_with_space_app a sp b Hsp), IH.
    destruct (PyStr.starts_with_space a) eqn:E; [reflexivity|].
    pose proof (split_ws_starts a E) as Hne.
    destruct (PyStr.split_ws a); [contradiction|reflexivity].
Qed.

Lemma append_cons_assoc (a : string) (c : ascii) (b d : string) :
  (a ++ String c (b ++ d))%string = ((a ++ String c b) ++ d)%string.
Proof. rewrite append_assoc. reflexivity. Qed.

Lemma no_linebreak_cons (a : ascii) (s : string) :
  PyStr.is_linebreak a = false -> no_linebreak s = true ->
  no_linebreak (String a s) = true.
Proof. intros Ha Hs. unfold no_linebreak in *. simpl. rewrite Ha, Hs. reflexivity. Qed.

Lemma listing_line_parsed (columns size dir name : string) :
  no_linebreak columns = true ->
  size <> ""%string -> no_space size = true ->
  no_space dir = true ->
  name <> ""%string -> no_space name = true -> no_slash name = true ->
  let line := (columns ++ String " " (size ++ String " "
                 (dir ++ String PyStr.slash name)))%string in
  get_filenames_and_sizes_from_ls line = Ok [(name, size)]
  /\ filename_of_line line = name
  /\ kept_lines line = [line].
Proof.
  intros Hcol Hsz Hsize Hdir Hnm Hname Hslash line.
  set (path := (dir ++ String PyStr.slash name)%string) in *.
  assert (filename_of_line line = name) as Hfile.
  { unfold filename_of_line, line, path.
    rewrite (append_cons_assoc size), (append_cons_assoc columns).
    rewrite rsplit1_at_last by exact Hslash. reflexivity. }
  assert (no_space path = true) as Hpath.
  { unfold path, no_space in *. rewrite all_chars_app. cbn [all_chars].
    rewrite Hdir, Hname. reflexivity. }
  assert (PyStr.split_ws line = PyStr.split_ws columns ++ [size; path]) as Htok.
  { unfold line. rewrite !split_ws_app by reflexivity.
    rewrite (split_ws_token size Hsz Hsize).
    rewrite (split_ws_token path); [reflexivity| |exact Hpath].
    unfold path. destruct dir; discriminate. }
  assert (PyStr.splitlines line = [line]) as Hlines.
  { apply splitlines_single; [|unfold line; destruct columns; discriminate].
    unfold line, no_linebreak in *. rewrite all_chars_app. cbn [all_chars].
    rewrite all_chars_app. cbn [all_chars].
    rewrite Hcol. fold (no_linebreak size). fold (no_linebreak path).
    rewrite (no_space_no_linebreak size Hsize),
      (no_space_no_linebreak path Hpath). reflexivity. }
  assert (kept_lines line = [line]) as Hkept.
  { unfold kept_lines. rewrite Hlines. cbn [filter]. rewrite Hfile.
    apply String.eqb_neq in Hnm. rewrite Hnm. reflexivity. }
  split.
  - unfold get_filenames_and_sizes_from_ls. rewrite comprehension_sizes.
    cbv zeta. fold (kept_lines line). rewrite Hkept. cbn [forallb map].
    unfold has_two_tokens, size_of_line. rewrite Htok, length_app.
    cbn [List.length].
    destruct (Nat.leb_spec 2 (List.length (PyStr.split_ws columns) + 2));
      [|lia].
    cbn [andb]. rewrite Hfile.
    replace (List.length (PyStr.split_ws columns) + 2 - 2)%nat
      with (List.length (PyStr.split_ws columns)) by lia.
    rewrite app_nth2 by lia. rewrite Nat.sub_diag. reflexivity.
  - split; assumption.
Qed.


(** X10.  A listing line read back.  For a line made of any text, a blank,
    a size token, a blank and a path that ends in a slash and a name (no
    blank in the path, no slash in the name, no line break anywhere), the
    parser with sizes returns exactly the name with the size, and the
    filename parser the name. *)
Theorem listing_line_read_back (columns size dir name : string) :
  no_linebreak columns = true ->
  size <> ""%string -> no_space size = true ->
  no_space dir = true ->
  name <> ""%string -> no_space name = true -> no_slash name = true ->
  let line := (columns ++ String " " (size ++ String " "
                 (dir ++ String PyStr.slash name)))%string in
  get_filenames_and_sizes_from_ls line = Ok [(name, size)]
  /\ Bagger.get_filenames_from_ls line = Ok [name].
Proof.
  intros Hcol Hsz Hsize Hdir Hnm Hname Hslash line.
  destruct (listing_line_parsed columns size dir name Hcol Hsz Hsize Hdir Hnm
              Hname Hslash) as [Hsizes [Hfile Hkept]].
  split; [exact Hsizes|].
  rewrite bagger_names. fold line in Hfile, Hkept.
  rewrite Hkept. cbn [map]. rewrite Hfile. reflexivity.
Qed.

Lemma listing_line_read_back_witness :
  let line := ("2024-01-01 12:30" ++ String " " ("100" ++ String " "
                 ("s3://bucket/path" ++ String PyStr.slash "file_abc123.tar")))%string in
  get_filenames_and_sizes_from_ls line = Ok [("file_abc123.tar", "100")%string]
  /\ Bagger.get_filenames_from_ls line = Ok ["file_abc123.tar"%string].
Proof.
  apply (listing_line_read_back "2024-01-01 12:30" "100" "s3://bucket/path"
           "file_abc123.tar").
  - reflexivity.
  - discriminate.
  - reflexivity.
  - reflexivity.
  - discriminate.
  - reflexivity.
  - reflexivity.
Defined.

(** ** The object-storage look-up *)

(** X11.  [check_wasabi] never returns.  It builds the [Wasabi] object
    with six arguments where [__init__] of [bagger/wasabi.py] takes four, so
    with a configuration that has the section and its five keys it raises
    [TypeError] before the bucket is listed, whatever the article, the version
    and the bucket; with a key or the section missing it raises [KeyError]. *)
Theorem check_wasabi_never_returns
    (list_bucket : wasabi -> string -> string * string)
    (config : option (list (string * string))) (article_id version_no : value) :
  check_wasabi list_bucket config article_id version_no
  = if has_wasabi_keys config then Raise TypeError else Raise KeyError.
Proof.
  unfold check_wasabi, has_wasabi_keys, config_get.
  destruct config as [section|]; cbn [bind]; [|reflexivity].
  destruct (assoc "host" section); cbn [bind isSome andb]; [|reflexivity].
  destruct (assoc "bucket" section); cbn [bind isSome andb]; [|reflexivity].
  destruct (assoc "host_bucket" section); cbn [bind isSome andb];
    [|reflexivity].
  destruct (assoc "access_key" section); cbn [bind isSome andb];
    [|reflexivity].
  destruct (assoc "secret_key" section); reflexivity.
Qed.

(** ** The normal form of a dict *)

Lemma dict_set_keys {B : Type} (d : list (string * B)) (k k' : string) (v : B) :
  In k' (map fst (dict_set d k v)) <-> k' = k \/ In k' (map fst d).
Proof.
  induction d as [|[k0 v0] d IH]; simpl.
  - intuition congruence.
  - destruct (String.eqb_spec k k0) as [->|Hk]; simpl.
    + intuition congruence.
    + rewrite IH. intuition congruence.
Qed.

Lemma assign_all_keys (entries : list (string * value)) (acc : pydict)
    (k : string) :
  In k (map fst (assign_all acc entries))
  <-> In k (map fst acc) \/ In k (map fst entries).
Proof.
  revert acc. induction entries as [|[k0 y] entries IH]; intros acc.
  - simpl. tauto.
  - cbn [assign_all fold_left fst snd map]. fold (assign_all (dict_set acc k0 y) entries).
    rewrite IH, dict_set_keys. simpl. intuition congruence.
Qed.

(** What the dict branch returns: a dict whose keys are those of the
    argument, ascending, each with what the loop assigned to it. *)
Lemma sorter_api_result_dict_shape (d : pydict) (w : value) :
  sorter_api_result (VDict d) = Ok w ->
  exists r,
    w = VDict r
    /\ ascending (map fst r)
    /\ (forall k, In k (map fst r) <-> In k (map fst d))
    /\ Forall (fun kv => sorted_item sorter_api_result (fst kv) d = Ok (snd kv)) r.
Proof.
  cbn [sorter_api_result]. intros H.
  set (keys := sorted_total String.ltb (map fst d)) in *.
  rewrite sorted_dict_loop_assign in H.
  destruct (mapM _ keys) as [ys|e] eqn:M; cbn [bind] in H; try discriminate.
  injection H as <-. apply mapM_Forall2 in M.
  pose proof (Forall2_length_eq _ _ _ M) as Hlen.
  exists (assign_all [] (combine keys ys)). split; [reflexivity|].
  split; [|split].
  - apply assign_all_ascending.
    + rewrite map_fst_combine by exact Hlen. apply sorted_keys_strongly_sorted.
    + constructor.
    + intros k' k [].
  - intros k. rewrite assign_all_keys, map_fst_combine by exact Hlen.
    simpl. unfold keys. split.
    + intros [[]|Hin].
      eapply Permutation_in; [apply Permutation_sym, sorted_total_perm|exact Hin].
    + intros Hin. right.
      eapply Permutation_in; [apply sorted_total_perm|exact Hin].
  - apply assign_all_In; [constructor|].
    apply Forall_forall. intros [k y] Hin.
    apply (Forall2_combine _ _ _ _ _ M Hin).
Qed.

Lemma sorter_api_result_dict_entry (d r : pydict) (k : string) (x : value) :
  sorter_api_result (VDict d) = Ok (VDict r) ->
  assoc k d = Some x ->
  exists y, assoc k r = Some y
            /\ (if String.eqb k "authors" then Ok x else sorter_api_result x)
               = Ok y.
Proof.
  intros H Hx. apply sorter_api_result_dict_shape in H.
  destruct H as [r' [E [Hasc [Hkeys Hr]]]]. injection E as <-.
  assert (In k (map fst r)) as Hin.
  { apply Hkeys. apply assoc_In in Hx. apply (in_map fst) in Hx. exact Hx. }
  apply in_map_iff in Hin. destruct Hin as [[k' y] [E Hin]]. cbn in E. subst k'.
  exists y. split.
  - apply In_assoc; [apply ascending_NoDup; exact Hasc|exact Hin].
  - rewrite Forall_forall in Hr. specialize (Hr (k, y) Hin). cbn [fst snd] in Hr.
    rewrite sorted_item_assoc, Hx in Hr. exact Hr.
Qed.

(** X14.  The normal form of a dict is a dict with the same keys, in
    strictly ascending order of their text, each key once. *)
Theorem normal_dict_keys (d : pydict) (w : value) :
  sorter_api_result (VDict d) = Ok w ->
  exists r,
    w = VDict r
    /\ ascending (map fst r)
    /\ NoDup (map fst r)
    /\ (forall k, In k (map fst r) <-> In k (map fst d)).
Proof.
  intros H. apply sorter_api_result_dict_shape in H.
  destruct H as [r [E [Hasc [Hkeys _]]]]. exists r.
  repeat split; try assumption; try apply Hkeys.
  apply ascending_NoDup. exact Hasc.
Qed.

Lemma normal_dict_keys_witness :
  exists r,
    VDict [("a", VList [VInt 1; VInt 2]); ("b", VInt 1)] = VDict r
    /\ ascending (map fst r)
    /\ NoDup (map fst r)
    /\ (forall k, In k (map fst r)
                  <-> In k (map fst [("b", VInt 1);
                                     ("a", VList [VInt 2; VInt 1])])).
Proof.
  apply (normal_dict_keys [("b", VInt 1); ("a", VList [VInt 2; VInt 1])]).
  vm_compute. reflexivity.
Defined.

(** X15.  The value under [authors] is in the normal form as it was in
    the dict: not sorted, not normalised, whatever it is. *)
Theorem authors_kept_verbatim (d r : pydict) (authors : value) :
  sorter_api_result (VDict d) = Ok (VDict r) ->
  assoc "authors" d = Some authors ->
  assoc "authors" r = Some authors.
Proof.
  intros H Ha.
  destruct (sorter_api_result_dict_entry d r "authors" authors H Ha)
    as [y [Hy E]].
  cbn in E. injection E as <-. exact Hy.
Qed.

Lemma authors_kept_verbatim_witness :
  assoc "authors"
        [("authors", VList [VStr "z"; VStr "a"]); ("b", VList [VInt 1; VInt 2])]
  = Some (VList [VStr "z"; VStr "a"]).
Proof.
  apply (authors_kept_verbatim
           [("b", VList [VInt 2; VInt 1]); ("authors", VList [VStr "z"; VStr "a"])]
           [("authors", VList [VStr "z"; VStr "a"]); ("b", VList [VInt 1; VInt 2])]
           (VList [VStr "z"; VStr "a"])).
  - vm_compute. reflexivity.
  - reflexivity.
Defined.

(** X16.  Under every other key, the normal form of a dict holds the
    normal form of the value that the dict held under that key. *)
Theorem other_values_normalised (d r : pydict) (k : string) (x : value) :
  sorter_api_result (VDict d) = Ok (VDict r) ->
  k <> "authors"%string ->
  assoc k d = Some x ->
  exists y, assoc k r = Some y /\ sorter_api_result x = Ok y.
Proof.
  intros H Hk Hx.
  destruct (sorter_api_result_dict_entry d r k x H Hx) as [y [Hy E]].
  apply String.eqb_neq in Hk. rewrite Hk in E. exists y. split; assumption.
Qed.

Lemma other_values_normalised_witness :
  exists y,
    assoc "b" [("authors", VList [VStr "z"; VStr "a"]);
               ("b", VList [VInt 1; VInt 2])] = Some y
    /\ sorter_api_result (VList [VInt 2; VInt 1]) = Ok y.
Proof.
  apply (other_values_normalised
           [("b", VList [VInt 2; VInt 1]); ("authors", VList [VStr "z"; VStr "a"])]
           [("authors", VList [VStr "z"; VStr "a"]); ("b", VList [VInt 1; VInt 2])]
           "b" (VList [VInt 2; VInt 1])).
  - vm_compute. reflexivity.
  - discriminate.
  - reflexivity.
Defined.

(** ** The normal form of a list, and what can be raised *)

Lemma mapM_raise {A B : Type} (f : A -> result B) (l : list A) (e : exn) :
  mapM f l = Raise e -> exists x, In x l /\ f x = Raise e.
Proof.
  induction l as [|x l IH]; simpl; [discriminate|].
  destruct (f x) as [y|e'] eqn:E; cbn [bind].
  - destruct (mapM f l) as [ys|e'']; cbn [bind]; [discriminate|].
    intros H. injection H as ->. destruct (IH eq_refl) as [x' [Hin Hx']].
    exists x'. split; [right; exact Hin|exact Hx'].
  - intros H. injection H as ->. exists x. split; [left; reflexivity|exact E].
Qed.

Lemma insert_sorted_raise {A : Type} (lt : A -> A -> result bool) (x : A)
    (l : list A) (e : exn) :
  insert_sorted lt x l = Raise e -> exists a b, lt a b = Raise e.
Proof.
  induction l as [|y l IH]; simpl; [discriminate|].
  destruct (lt y x) as [[|]|e'] eqn:E; cbn [bind].
  - destruct (insert_sorted lt x l) as [r|e'']; cbn [bind]; [discriminate|].
    intros H. injection H as ->. apply IH. reflexivity.
  - discriminate.
  - intros H. injection H as ->. exists y, x. exact E.
Qed.

Lemma py_sorted_raise {A : Type} (lt : A -> A -> result bool) (l : list A)
    (e : exn) :
  py_sorted lt l = Raise e -> exists a b, lt a b = Raise e.
Proof.
  induction l as [|x l IH]; simpl; [discriminate|].
  destruct (py_sorted lt l) as [s|e'] eqn:E; cbn [bind].
  - apply insert_sorted_raise.
  - intros H. injection H as ->. apply IH. reflexivity.
Qed.

Lemma list_lt_with_raise (xs ys : list value) (e : exn) :
  Forall (fun x => forall y e, py_lt x y = Raise e -> e = TypeError) xs ->
  list_lt_with py_eq py_lt xs ys = Raise e -> e = TypeError.
Proof.
  intros H. revert ys. induction H as [|x xs Hx _ IH]; intros [|y ys]; simpl;
    try discriminate.
  destruct (py_eq x y); [apply IH|apply Hx].
Qed.

(** A comparison that fails is a [TypeError]. *)
Lemma py_lt_raise (a b : value) (e : exn) :
  py_lt a b = Raise e -> e = TypeError.
Proof.
  revert b e. induction a as [|p|m|s|l IH|d IH] using value_ind_nested;
    intros [|q|n|t|l'|d'] e; simpl; try discriminate;
    try (intros H; injection H as <-; reflexivity).
  apply list_lt_with_raise. exact IH.
Qed.

Lemma sorter_api_result_raise (v : value) (e : exn) :
  sorter_api_result v = Raise e -> e = TypeError.
Proof.
  revert e. induction v as [|b|n|s|l IH|d IH] using value_ind_nested;
    intros e H; try (cbn [sorter_api_result] in H; discriminate).
  - cbn [sorter_api_result] in H.
    destruct (forallb is_dict l && negb (Nat.eqb (List.length l) 0))%bool;
      [discriminate|].
    destruct (mapM sorter_api_result l) as [items|e'] eqn:M; cbn [bind] in H.
    + destruct (py_sorted py_lt items) as [r|e''] eqn:S; cbn [bind] in H;
        [discriminate|].
      injection H as ->. apply py_sorted_raise in S.
      destruct S as [a [b Hab]]. apply (py_lt_raise a b e Hab).
    + injection H as ->. apply mapM_raise in M. destruct M as [x [Hin Hx]].
      rewrite Forall_forall in IH. apply (IH x Hin e Hx).
  - cbn [sorter_api_result] in H. rewrite sorted_dict_loop_assign in H.
    destruct (mapM _ _) as [ys|e'] eqn:M; cbn [bind] in H; [discriminate|].
    injection H as ->. apply mapM_raise in M. destruct M as [k [Hin Hk]].
    rewrite sorted_item_assoc in Hk.
    destruct (assoc k d) as [x|] eqn:E.
    + destruct (String.eqb k "authors"); [discriminate|].
      apply assoc_In in E. rewrite Forall_forall in IH. apply (IH (k, x) E e Hk).
    + exfalso. apply assoc_None in E. apply E.
      eapply Permutation_in; [apply Permutation_sym, sorted_total_perm|exact Hin].
Qed.

(** X17.  The normaliser returns, or it raises [TypeError]: no other
    exception comes out of it; in particular the look-up of a key in the
    dict branch never fails. *)
Theorem sorter_api_result_type_error_only (v : value) :
  (exists w, sorter_api_result v = Ok w)
  \/ sorter_api_result v = Raise TypeError.
Proof.
  destruct (sorter_api_result v) as [w|e] eqn:E.
  - left. exists w. reflexivity.
  - right. rewrite (sorter_api_result_raise v e E). reflexivity.
Qed.

(** X18.  On a list that is not all dicts, the normal form is a list of
    the normal forms of the items, in an order in which no item is below the
    one in front of it. *)
Theorem normal_list_sorted (l : list value) (w : value) :
  forallb is_dict l = false ->
  sorter_api_result (VList l) = Ok w ->
  exists items r,
    w = VList r
    /\ Forall2 (fun x y => sorter_api_result x = Ok y) l items
    /\ Permutation items r
    /\ Sorted (before py_lt) r.
Proof.
  intros Hd H. cbn [sorter_api_result] in H. rewrite Hd in H. cbn [andb] in H.
  destruct (mapM sorter_api_result l) as [items|e] eqn:M; cbn [bind] in H;
    try discriminate.
  destruct (py_sorted py_lt items) as [r|e] eqn:S; cbn [bind] in H;
    try discriminate.
  injection H as <-. exists items, r. split; [reflexivity|].
  split; [apply mapM_Forall2; exact M|].
  split; [eapply py_sorted_perm; exact S|].
  eapply py_sorted_sorted; [apply py_lt_asym|exact S].
Qed.

Lemma normal_list_sorted_witness :
  exists items r,
    VList [VBool true; VInt 1; VInt 3] = VList r
    /\ Forall2 (fun x y => sorter_api_result x = Ok y)
               [VInt 3; VBool true; VInt 1] items
    /\ Permutation items r
    /\ Sorted (before py_lt) r.
Proof.
  apply (normal_list_sorted [VInt 3; VBool true; VInt 1]).
  - reflexivity.
  - vm_compute. reflexivity.
Defined.

Lemma sorted_neighbour {A : Type} (R : A -> A -> Prop) (l : list A) (x : A) :
  Sorted R l -> In x l -> (2 <= List.length l)%nat ->
  exists y, R x y \/ R y x.
Proof.
  induction 1 as [|a l Hl IH Ha]; simpl; [contradiction|].
  intros [->|Hin] Hlen.
  - destruct Ha as [|b l Hab]; [simpl in Hlen; lia|]. exists b. left. exact Hab.
  - destruct l as [|b [|c l]].
    + contradiction.
    + destruct Hin as [->|[]]. inversion Ha; subst. exists a. right. assumption.
    + apply IH; [exact Hin|simpl; lia].
Qed.

Lemma py_lt_none (y : value) :
  py_lt VNone y = Raise TypeError /\ py_lt y VNone = Raise TypeError.
Proof. destruct y as [|[|]| | | |]; split; reflexivity. Qed.

(** X19.  [None] cannot be sorted with anything: on a list of two items or
    more, one of which is [None], the normaliser raises [TypeError]. *)
Theorem none_in_list_raises (l : list value) :
  In VNone l -> (2 <= List.length l)%nat ->
  sorter_api_result (VList l) = Raise TypeError.
Proof.
  intros Hin Hlen.
  destruct (sorter_api_result (VList l)) as [w|e] eqn:E;
    [|rewrite (sorter_api_result_raise _ e E); reflexivity].
  exfalso.
  assert (forallb is_dict l = false) as Hd.
  { destruct (forallb is_dict l) eqn:F; [|reflexivity].
    rewrite forallb_forall in F. discriminate (F VNone Hin). }
  cbn [sorter_api_result] in E. rewrite Hd in E. cbn [andb] in E.
  destruct (mapM sorter_api_result l) as [items|e] eqn:M; cbn [bind] in E;
    try discriminate.
  destruct (py_sorted py_lt items) as [r|e] eqn:S; cbn [bind] in E;
    try discriminate.
  apply mapM_Forall2 in M.
  assert (In VNone items) as Hitems.
  { clear S E Hlen Hd. induction M as [|x y l items Hxy _ IH];
      [contradiction|].
    destruct Hin as [->|Hin].
    - cbn in Hxy. injection Hxy as <-. left. reflexivity.
    - right. apply IH. exact Hin. }
  pose proof (py_sorted_perm py_lt items r S) as HP.
  pose proof (py_sorted_sorted py_lt py_lt_asym items r S) as Hs.
  assert (In VNone r) as Hr by (eapply Permutation_in; eassumption).
  assert (2 <= List.length r)%nat as Hlr
    by (rewrite <- (Permutation_length HP), <- (Forall2_length_eq _ _ _ M);
        exact Hlen).
  destruct (sorted_neighbour _ r VNone Hs Hr Hlr) as [y [H|H]];
    unfold before in H; destruct (py_lt_none y) as [H1 H2]; congruence.
Qed.

Lemma none_in_list_raises_witness :
  sorter_api_result (VList [VStr "a"; VNone]) = Raise TypeError.
Proof.
  apply (none_in_list_raises [VStr "a"; VNone]).
  - right. left. reflexivity.
  - simpl. lia.
Defined.

(** ** [standardize_api_result] on the store *)

Lemma deref_store_update (st : store) (r : ref) (d d' : pydict) :
  deref st r = Ok d -> deref (store_update st r d') r = Ok d'.
Proof.
  unfold deref. revert r. induction st as [|d0 st IH]; intros [|r]; simpl;
    try discriminate; [reflexivity|apply IH].
Qed.

Lemma deref_store_update_other (st : store) (r r' : ref) (d' : pydict) :
  r' <> r -> deref (store_update st r d') r' = deref st r'.
Proof.
  unfold deref. revert r r'. induction st as [|d0 st IH]; intros [|r] [|r'] H;
    simpl; try reflexivity; try contradiction.
  apply IH. congruence.
Qed.

Lemma store_update_twice (st : store) (r : ref) (a b : pydict) :
  store_update (store_update st r a) r b = store_update st r b.
Proof.
  revert r. induction st as [|d0 st IH]; intros [|r]; simpl;
    try reflexivity. rewrite IH. reflexivity.
Qed.

Lemma store_update_same (st : store) (r : ref) (d : pydict) :
  deref st r = Ok d -> store_update st r d = st.
Proof.
  unfold deref. revert r. induction st as [|d0 st IH]; intros [|r]; simpl;
    try discriminate.
  - intros H. injection H as ->. reflexivity.
  - intros H. rewrite IH by exact H. reflexivity.
Qed.

Lemma assoc_middle {B : Type} (pre suf : list (string * B)) (k : string) (v : B) :
  ~ In k (map fst pre) -> assoc k (pre ++ (k, v) :: suf) = Some v.
Proof.
  induction pre as [|[k0 v0] pre IH]; simpl; intros H.
  - rewrite String.eqb_refl. reflexivity.
  - destruct (String.eqb_spec k k0) as [->|_]; [tauto|]. apply IH. tauto.
Qed.

Lemma dict_set_middle {B : Type} (pre suf : list (string * B)) (k : string)
    (v v' : B) :
  ~ In k (map fst pre) ->
  dict_set (pre ++ (k, v) :: suf) k v' = pre ++ (k, v') :: suf.
Proof.
  induction pre as [|[k0 v0] pre IH]; simpl; intros H.
  - rewrite String.eqb_refl. reflexivity.
  - destruct (String.eqb_spec k k0) as [->|_]; [tauto|].
    rewrite IH by tauto. reflexivity.
Qed.

(** The loop over the keys, with [pre] done and [suf] to do. *)
Lemma standardize_loop_fields (r : ref) (suf pre : pydict) (st : store) :
  NoDup (map fst (pre ++ suf)) ->
  deref st r = Ok (pre ++ suf) ->
  standardize_loop r (map fst suf) st
  = Ok (store_update st r (pre ++ map standardize_field suf)).
Proof.
  revert pre st. induction suf as [|[k v] suf IH]; intros pre st Hnd Hd.
  - cbn [map standardize_loop]. rewrite store_update_same by exact Hd.
    reflexivity.
  - assert (~ In k (map fst pre)) as Hk.
    { rewrite map_app in Hnd. cbn [map fst] in Hnd.
      apply NoDup_remove_2 in Hnd. intros Hin. apply Hnd.
      apply in_or_app. left. exact Hin. }
    cbn [map fst standardize_loop]. unfold getitem. rewrite Hd. cbn [bind].
    rewrite (assoc_middle pre suf k v Hk). cbn [bind].
    unfold standardize_field at 1. cbn [fst snd].
    destruct (py_eq v (VStr "null") || is_none v)%bool.
    + unfold setitem. rewrite Hd. cbn [bind].
      rewrite (dict_set_middle pre suf k v (VStr "") Hk).
      rewrite (IH (pre ++ [(k, VStr "")])).
      * rewrite store_update_twice, <- app_assoc. reflexivity.
      * rewrite <- app_assoc. cbn [app].
        rewrite map_app in *. cbn [map fst] in *. exact Hnd.
      * rewrite <- app_assoc. cbn [app]. eapply deref_store_update. exact Hd.
    + rewrite (IH (pre ++ [(k, v)])).
      * rewrite <- app_assoc. reflexivity.
      * rewrite <- app_assoc. exact Hnd.
      * rewrite <- app_assoc. exact Hd.
Qed.

Lemma standardize_api_result_fields (r : ref) (st : store) (d : pydict) :
  deref st r = Ok d -> NoDup (map fst d) ->
  standardize_api_result r st
  = Ok (r, store_update st r (map standardize_field d)).
Proof.
  intros Hd Hnd. unfold standardize_api_result. rewrite Hd. cbn [bind].
  rewrite (standardize_loop_fields r d [] st Hnd Hd). reflexivity.
Qed.

Lemma standardize_field_twice (kv : string * value) :
  standardize_field (standardize_field kv) = standardize_field kv.
Proof.
  destruct kv as [k v]. unfold standardize_field. cbn [fst snd].
  destruct (py_eq v (VStr "null") || is_none v)%bool eqn:E;
    [reflexivity|rewrite E; reflexivity].
Qed.

Lemma standardize_field_key (d : pydict) :
  map fst (map standardize_field d) = map fst d.
Proof. rewrite map_map. reflexivity. Qed.

(** X20.  [standardize_api_result] works in place: it returns the address
    it was given, and in the store the dict at that address has the same
    keys in the same order, with the empty text wherever the value was
    [None] or the text [null] and every other value as it was; the other
    objects of the store are untouched. *)
Theorem standardize_api_result_in_place (r : ref) (st : store) (d : pydict) :
  deref st r = Ok d -> NoDup (map fst d) ->
  exists st',
    standardize_api_result r st = Ok (r, st')
    /\ deref st' r = Ok (map standardize_field d)
    /\ map fst (map standardize_field d) = map fst d
    /\ forall r', r' <> r -> deref st' r' = deref st r'.
Proof.
  intros Hd Hnd. exists (store_update st r (map standardize_field d)).
  split; [apply standardize_api_result_fields; assumption|].
  split; [eapply deref_store_update; exact Hd|].
  split; [apply standardize_field_key|].
  intros r' Hr'. apply deref_store_update_other. exact Hr'.
Qed.

Lemma standardize_api_result_in_place_witness :
  exists st',
    standardize_api_result 1%nat [[("x", VNone)]; Sample.version_data] = Ok (1%nat, st')
    /\ deref st' 1%nat = Ok (map standardize_field Sample.version_data)
    /\ map fst (map standardize_field Sample.version_data)
       = map fst Sample.version_data
    /\ forall r', r' <> 1%nat ->
                  deref st' r' = deref [[("x", VNone)]; Sample.version_data] r'.
Proof.
  apply (standardize_api_result_in_place 1%nat
           [[("x", VNone)]; Sample.version_data] Sample.version_data).
  - reflexivity.
  - simpl. repeat constructor; simpl; intuition discriminate.
Defined.

(** X21.  Standardising twice is standardising once: a second call on
    the store that the first one left changes nothing. *)
Theorem standardize_api_result_twice (r : ref) (st st' : store) (d : pydict) :
  deref st r = Ok d -> NoDup (map fst d) ->
  standardize_api_result r st = Ok (r, st') ->
  standardize_api_result r st' = Ok (r, st').
Proof.
  intros Hd Hnd H.
  rewrite (standardize_api_result_fields r st d Hd Hnd) in H.
  injection H as <-.
  rewrite (standardize_api_result_fields r _ (map standardize_field d)).
  - rewrite store_update_twice, map_map.
    rewrite (map_ext _ _ standardize_field_twice). reflexivity.
  - eapply deref_store_update. exact Hd.
  - rewrite standardize_field_key. exact Hnd.
Qed.

Lemma standardize_api_result_twice_witness :
  standardize_api_result 0%nat
    [[("id", VInt 7); ("title", VStr ""); ("size", VInt 100); ("version", VInt 1)]]
  = Ok (0%nat,
        [[("id", VInt 7); ("title", VStr ""); ("size", VInt 100);
          ("version", VInt 1)]]).
Proof.
  apply (standardize_api_result_twice 0%nat [Sample.version_data] _
           Sample.version_data).
  - reflexivity.
  - simpl. repeat constructor; simpl; intuition discriminate.
  - vm_compute. reflexivity.
Defined.

(** X22.  A dict without a [None] and without the text [null] among its
    values is left as it is, and so is the whole store. *)
Theorem standardize_api_result_no_null (r : ref) (st : store) (d : pydict) :
  deref st r = Ok d -> NoDup (map fst d) ->
  (forall k v, In (k, v) d ->
               (py_eq v (VStr "null") || is_none v)%bool = false) ->
  standardize_api_result r st = Ok (r, st).
Proof.
  intros Hd Hnd Hnull.
  rewrite (standardize_api_result_fields r st d Hd Hnd).
  replace (map standardize_field d) with d.
  - rewrite store_update_same by exact Hd. reflexivity.
  - rewrite <- (map_id d) at 1. apply map_ext_in. intros [k v] Hin.
    unfold standardize_field. cbn [fst snd]. rewrite (Hnull k v Hin).
    reflexivity.
Qed.

Lemma standardize_api_result_no_null_witness :
  standardize_api_result 0%nat [[("id", VInt 7); ("size", VInt 100)]]
  = Ok (0%nat, [[("id", VInt 7); ("size", VInt 100)]]).
Proof.
  apply (standardize_api_result_no_null 0%nat
           [[("id", VInt 7); ("size", VInt 100)]]
           [("id", VInt 7); ("size", VInt 100)]).
  - reflexivity.
  - simpl. repeat constructor; simpl; intuition discriminate.
  - intros k v [E|[E|[]]]; injection E as <- <-; reflexivity.
Defined.

(** ** The size of the JSON file *)

Lemma sorter_api_result_perm (d1 d2 : pydict) :
  NoDup (map fst d1) -> Permutation d1 d2 ->
  sorter_api_result (VDict d1) = sorter_api_result (VDict d2).
Proof.
  intros Hnd HP. cbn [sorter_api_result].
  rewrite (sorted_keys_of_perm (map fst d1) (map fst d2))
    by (apply Permutation_map; exact HP).
  rewrite (sorted_dict_loop_ext sorter_api_result d1 d2); [reflexivity|].
  intros k. apply assoc_perm; assumption.
Qed.

Section JsonFileSizeFacts.
Variables (json_dumps : value -> string) (temp_dir : tempdir).

Lemma calculate_json_file_size_fields (r : ref) (st : store) (d : pydict) :
  deref st r = Ok d -> NoDup (map fst d) ->
  calculate_json_file_size json_dumps temp_dir r st
  = (nf <- sorter_api_result (VDict (map standardize_field d)) ;;
     id <- match assoc "id" (map standardize_field d) with
           | Some v => Ok v
           | None => Raise KeyError
           end ;;
     if (tmp_exists temp_dir && tmp_writable temp_dir)%bool
     then _ <- tmp_open temp_dir
                 (Os.path_join (tmp_path temp_dir) (PyRepr.str id ++ ".json")) ;;
          Ok (Z.of_nat (String.length (json_dumps nf)),
              store_update st r (map standardize_field d))
     else Ok (0%Z, store_update st r (map standardize_field d))).
Proof.
  intros Hd Hnd. unfold calculate_json_file_size.
  rewrite (standardize_api_result_fields r st d Hd Hnd). cbn [bind].
  unfold getitem. rewrite (deref_store_update st r d _ Hd). cbn [bind].
  destruct (sorter_api_result _) as [nf|e]; cbn [bind]; [|reflexivity].
  destruct (assoc "id" _) as [id|]; cbn [bind]; [|reflexivity].
  destruct (tmp_exists temp_dir), (tmp_writable temp_dir); reflexivity.
Qed.

(** X23.  The size of the JSON file does not depend on the order in which
    the record holds its fields: two records with the same fields get the
    same size, or the same exception. *)
Theorem json_file_size_key_order (r : ref) (st1 st2 : store) (d1 d2 : pydict) :
  deref st1 r = Ok d1 -> deref st2 r = Ok d2 ->
  NoDup (map fst d1) -> Permutation d1 d2 ->
  result_map fst (calculate_json_file_size json_dumps temp_dir r st1)
  = result_map fst (calculate_json_file_size json_dumps temp_dir r st2).
Proof.
  intros H1 H2 Hnd HP.
  assert (NoDup (map fst d2)) as Hnd2
    by (eapply Permutation_NoDup; [apply Permutation_map; exact HP|exact Hnd]).
  rewrite (calculate_json_file_size_fields r st1 d1 H1 Hnd),
    (calculate_json_file_size_fields r st2 d2 H2 Hnd2).
  assert (Permutation (map standardize_field d1) (map standardize_field d2))
    as HP' by (apply Permutation_map; exact HP).
  assert (NoDup (map fst (map standardize_field d1))) as Hnd'
    by (rewrite standardize_field_key; exact Hnd).
  rewrite (sorter_api_result_perm _ _ Hnd' HP').
  rewrite (assoc_perm "id" _ _ Hnd' HP').
  destruct (sorter_api_result _) as [nf|e]; cbn [bind result_map];
    [|reflexivity].
  destruct (assoc "id" _) as [id|]; cbn [bind result_map]; [|reflexivity].
  destruct (tmp_exists temp_dir && tmp_writable temp_dir)%bool; [|reflexivity].
  destruct (tmp_open temp_dir _) as [[]|e]; reflexivity.
Qed.

(** X24.  Whenever [calculate_json_file_size] returns, the record of the
    caller is the standardised one afterwards; the size is the length of the
    serialised normal form of that record when the temporary directory
    exists and can be written to, and 0 otherwise. *)
Theorem calculate_json_file_size_returns (r : ref) (st st' : store)
    (d : pydict) (n : Z) :
  deref st r = Ok d -> NoDup (map fst d) ->
  calculate_json_file_size json_dumps temp_dir r st = Ok (n, st') ->
  deref st' r = Ok (map standardize_field d)
  /\ exists nf,
       sorter_api_result (VDict (map standardize_field d)) = Ok nf
       /\ n = if (tmp_exists temp_dir && tmp_writable temp_dir)%bool
              then Z.of_nat (String.length (json_dumps nf)) else 0%Z.
Proof.
  intros Hd Hnd H. rewrite (calculate_json_file_size_fields r st d Hd Hnd) in H.
  destruct (sorter_api_result _) as [nf|e]; cbn [bind] in H; [|discriminate].
  destruct (assoc "id" _) as [id|]; cbn [bind] in H; [|discriminate].
  destruct (tmp_exists temp_dir && tmp_writable temp_dir)%bool.
  - destruct (tmp_open temp_dir _) as [[]|e]; cbn [bind] in H; [|discriminate].
    injection H as <- <-. split; [eapply deref_store_update; exact Hd|].
    exists nf. split; reflexivity.
  - injection H as <- <-. split; [eapply deref_store_update; exact Hd|].
    exists nf. split; reflexivity.
Qed.
End JsonFileSizeFacts.

Lemma json_file_size_key_order_witness :
  result_map fst
    (calculate_json_file_size PyRepr.repr Sample.writable_tmp 0%nat
       [[("size", VInt 100); ("id", VInt 7)]])
  = result_map fst
      (calculate_json_file_size PyRepr.repr Sample.writable_tmp 0%nat
         [[("id", VInt 7); ("size", VInt 100)]]).
Proof.
  apply (json_file_size_key_order PyRepr.repr Sample.writable_tmp 0%nat
           [[("size", VInt 100); ("id", VInt 7)]]
           [[("id", VInt 7); ("size", VInt 100)]]
           [("size", VInt 100); ("id", VInt 7)]
           [("id", VInt 7); ("size", VInt 100)]).
  - reflexivity.
  - reflexivity.
  - simpl. repeat constructor; simpl; intuition discriminate.
  - apply perm_swap.
Defined.

Lemma calculate_json_file_size_returns_witness :
  deref [map standardize_field Sample.version_data] 0%nat
  = Ok (map standardize_field Sample.version_data)
  /\ exists nf,
       sorter_api_result (VDict (map standardize_field Sample.version_data))
       = Ok nf
       /\ 0%Z = if (tmp_exists Cases.read_only_tmp
                    && tmp_writable Cases.read_only_tmp)%bool
                then Z.of_nat (String.length (PyRepr.repr nf)) else 0%Z.
Proof.
  apply (calculate_json_file_size_returns PyRepr.repr
           Cases.read_only_tmp 0%nat
           [Sample.version_data] [map standardize_field Sample.version_data]
           Sample.version_data 0%Z).
  - reflexivity.
  - simpl. repeat constructor; simpl; intuition discriminate.
  - vm_compute. reflexivity.
Defined.

(** ** The walk to the UAL_RDM directory *)

Lemma first_matching_dir_matching (sub parent : string) (items : list dirent)
    (path : string) :
  first_matching_dir sub parent items path
  = match matching_dir sub items with
    | Some item => Os.path_join parent (name item)
    | None => path
    end.
Proof. reflexivity. Qed.

Lemma sum_file_sizes_total (fs : filesystem) (dir : string)
    (items : list dirent) (acc : Z) :
  (forall item, In item items ->
                Os.getsize fs (Os.path_join dir (name item)) = Ok (size item)) ->
  sum_file_sizes fs dir items acc = Ok (acc + total_size items)%Z.
Proof.
  revert acc. induction items as [|item items IH]; intros acc H.
  - simpl. f_equal. lia.
  - cbn [sum_file_sizes total_size fold_right].
    rewrite (H item) by (left; reflexivity). cbn [bind].
    rewrite IH by (intros i Hi; apply H; right; exact Hi).
    f_equal. unfold total_size. lia.
Qed.

(** X25.  With all three levels there, the size is the sum of the sizes of
    the entries of the UAL_RDM directory, files and directories alike, each
    entry counted once and nothing below it.  At every level the directory
    taken is the first one whose name has the text looked for in it. *)
Theorem calculate_ual_rdm_size_sum (fs : filesystem) (root : string)
    (article_id : value) (version : string)
    (top articles versions files : list dirent) (a v u : dirent) :
  Os.access fs root = true ->
  Os.scandir fs root = Ok top ->
  matching_dir (PyRepr.str article_id) top = Some a ->
  Os.scandir fs (Os.path_join root (name a)) = Ok articles ->
  matching_dir version articles = Some v ->
  Os.scandir fs (Os.path_join (Os.path_join root (name a)) (name v))
  = Ok versions ->
  matching_dir "UAL_RDM" versions = Some u ->
  let ual_rdm :=
    Os.path_join (Os.path_join (Os.path_join root (name a)) (name v)) (name u) in
  Os.scandir fs ual_rdm = Ok files ->
  (forall item, In item files ->
     Os.getsize fs (Os.path_join ual_rdm (name item)) = Ok (size item)) ->
  calculate_ual_rdm_size fs root article_id version = Ok (total_size files).
Proof.
  intros Hacc Htop Ha Harts Hv Hvers Hu ual_rdm Hfiles Hsizes.
  unfold calculate_ual_rdm_size. rewrite Hacc, Htop. cbn [bind].
  rewrite first_matching_dir_matching, Ha, Harts. cbn [bind].
  rewrite first_matching_dir_matching, Hv, Hvers. cbn [bind].
  rewrite first_matching_dir_matching, Hu. fold ual_rdm.
  rewrite Hfiles. cbn [bind].
  rewrite (sum_file_sizes_total fs ual_rdm files 0 Hsizes). reflexivity.
Qed.

Lemma calculate_ual_rdm_size_sum_witness :
  calculate_ual_rdm_size Sample.complete "/store" (VInt 42) "v01"
  = Ok (total_size [Sample.entry "readme.txt" false 10;
                    Sample.entry "deposit.pdf" false 32]).
Proof.
  apply (calculate_ual_rdm_size_sum Sample.complete "/store" (VInt 42) "v01"
           [Sample.entry "article_42" true 4096]
           [Sample.entry "v01" true 4096]
           [Sample.entry "UAL_RDM" true 4096]
           [Sample.entry "readme.txt" false 10;
            Sample.entry "deposit.pdf" false 32]
           (Sample.entry "article_42" true 4096)
           (Sample.entry "v01" true 4096)
           (Sample.entry "UAL_RDM" true 4096)); try reflexivity.
  intros item [<-|[<-|[]]]; reflexivity.
Defined.

(** X26.  A level that is not there is not skipped.  With a readable
    root, when no directory of the root has the article id in its name, or
    the article directory has no directory with the version tag in its name,
    or the version directory has none with UAL_RDM in its name, the next
    scan is given the empty path and the function raises
    [FileNotFoundError]. *)
Theorem calculate_ual_rdm_size_level_absent (fs : filesystem) (root : string)
    (article_id : value) (version : string) (top : list dirent) :
  Os.access fs root = true ->
  Os.scandir fs root = Ok top ->
  matching_dir (PyRepr.str article_id) top = None
  \/ (exists a articles,
        matching_dir (PyRepr.str article_id) top = Some a
        /\ Os.scandir fs (Os.path_join root (name a)) = Ok articles
        /\ (matching_dir version articles = None
            \/ exists v versions,
                 matching_dir version articles = Some v
                 /\ Os.scandir fs
                      (Os.path_join (Os.path_join root (name a)) (name v))
                    = Ok versions
                 /\ matching_dir "UAL_RDM" versions = None)) ->
  calculate_ual_rdm_size fs root article_id version = Raise FileNotFoundError.
Proof.
  intros Hacc Htop H. unfold calculate_ual_rdm_size.
  rewrite Hacc, Htop. cbn [bind]. rewrite first_matching_dir_matching.
  destruct H as [Ha|[a [articles [Ha [Harts H]]]]]; rewrite Ha;
    [reflexivity|].
  rewrite Harts. cbn [bind]. rewrite first_matching_dir_matching.
  destruct H as [Hv|[v [versions [Hv [Hvers Hu]]]]]; rewrite Hv;
    [reflexivity|].
  rewrite Hvers. cbn [bind]. rewrite first_matching_dir_matching, Hu.
  reflexivity.
Qed.

Lemma calculate_ual_rdm_size_level_absent_witness :
  calculate_ual_rdm_size Sample.no_ual_rdm_dir "/store" (VInt 42) "v01"
  = Raise FileNotFoundError.
Proof.
  apply (calculate_ual_rdm_size_level_absent Sample.no_ual_rdm_dir "/store"
           (VInt 42) "v01" [Sample.entry "article_42" true 4096]).
  - reflexivity.
  - reflexivity.
  - right. exists (Sample.entry "article_42" true 4096),
      [Sample.entry "v01" true 4096].
    split; [reflexivity|]. split; [reflexivity|]. right.
    exists (Sample.entry "v01" true 4096), [Sample.entry "DATA" true 4096].
    split; [reflexivity|]. split; reflexivity.
Defined.

(** ** The payload size *)



Section PayloadSizeFacts.
Variables (json_dumps : value -> string) (fs : filesystem) (temp_dir : tempdir).
Variable curation_storage : string.

(** X27.  A record without [id], without [size] or without [version]
    makes [calculate_payload_size] raise [KeyError], whatever the file
    system holds. *)
Theorem calculate_payload_size_missing_field (r : ref) (st : store)
    (d : pydict) :
  deref st r = Ok d ->
  assoc "id" d = None \/ assoc "size" d = None \/ assoc "version" d = None ->
  calculate_payload_size json_dumps fs temp_dir curation_storage r st
  = Raise KeyError.
Proof.
  intros Hd H. unfold calculate_payload_size, getitem. rewrite Hd. cbn [bind].
  destruct (assoc "id" d); [|reflexivity]. cbn [bind].
  destruct (assoc "size" d); [|reflexivity]. cbn [bind].
  destruct (assoc "version" d); [|reflexivity].
  destruct H as [H|[H|H]]; discriminate H.
Qed.

End PayloadSizeFacts.

Lemma calculate_payload_size_missing_field_witness :
  calculate_payload_size PyRepr.repr Sample.complete Sample.writable_tmp
    "/store" 0%nat [[("id", VInt 42); ("version", VInt 1)]]
  = Raise KeyError.
Proof.
  apply (calculate_payload_size_missing_field PyRepr.repr Sample.complete
           Sample.writable_tmp "/store" 0%nat
           [[("id", VInt 42); ("version", VInt 1)]]
           [("id", VInt 42); ("version", VInt 1)]).
  - reflexivity.
  - right. left. reflexivity.
Defined.

